(** * Scalar coercion of graphql-js ([src/type/scalars.ts])

    A shallow embedding of the five built-in scalar definitions ([Int],
    [Float], [String], [Boolean], [ID]), of the registry helpers
    [specifiedScalarTypes] / [isSpecifiedScalarType] and of
    [serializeObject], together with the part of the JavaScript runtime
    these functions call ([Number], [String], [Boolean], [parseInt],
    [parseFloat], [Math.floor], [Array.isArray]).

    Layout: the runtime model (module [JS]), the syntax-tree nodes, the
    embedding of the source, then the properties. *)

From Stdlib Require Import ZArith NArith List String Ascii Bool Lia.
From Stdlib Require Import DecimalString DecimalPos DecimalN.
Import ListNotations.

Local Open Scope string_scope.
Local Open Scope Z_scope.

(* ================================================================== *)
(** * Calls that return or throw *)
(* ================================================================== *)

(** What a JavaScript call can throw here: the [TypeError]s the source
    creates with [new TypeError(message)], and the [TypeError] the
    runtime itself throws when a value has no primitive, numeric or
    string conversion, whose message is the engine's
    ([ConversionError]). *)
Inductive exception : Type :=
| TypeError (message : string)
| ConversionError.

(** What a call yields: it returns or it throws. *)
Inductive completion (A : Type) : Type :=
| Return (a : A)
| Throw (e : exception).

Arguments Return {A} a.
Arguments Throw {A} e.

(** Sequencing: an exception of the first call ends the evaluation. *)
Definition and_then {A B : Type} (c : completion A) (k : A -> completion B)
  : completion B :=
  match c with
  | Return a => k a
  | Throw e => Throw e
  end.

Notation "x <- c ;; k" := (and_then c (fun x => k))
  (at level 61, c at next level, right associativity).

(* ================================================================== *)
(** * The JavaScript runtime used by the source *)
(* ================================================================== *)

Module JS.

(** ** Numbers

    A JavaScript number is an IEEE-754 binary64 value.  Every finite
    binary64 value is a dyadic rational [m / 2^e] with [e >= 0], so a
    finite number is kept as such a pair; the two zeros are [Fin 0 _]
    and [NegZero].  The operations the source applies to numbers
    (comparisons and [Math.floor]) are exact on binary64, hence they are
    the exact operations on dyadic rationals.  Rounding to binary64
    ([round_to_double]) happens where the runtime rounds: when a string
    is converted to a number. *)

Inductive number : Set :=
| NaN
| Infinity (negative : bool)
| NegZero
| Fin (m : Z) (e : N).

Definition pow2 (e : N) : Z := 2 ^ Z.of_N e.

(** The number with integer value [z]. *)
Definition of_Z (z : Z) : number := Fin z 0.

(** IEEE comparison; [None] when one side is [NaN] (unordered). *)
Definition compare (x y : number) : option comparison :=
  match x, y with
  | NaN, _ | _, NaN => None
  | Infinity a, Infinity b =>
      Some (if a then (if b then Eq else Lt) else (if b then Gt else Eq))
  | Infinity a, _ => Some (if a then Lt else Gt)
  | _, Infinity b => Some (if b then Gt else Lt)
  | NegZero, NegZero => Some Eq
  | NegZero, Fin m _ => Some (0 ?= m)
  | Fin m _, NegZero => Some (m ?= 0)
  | Fin m1 e1, Fin m2 e2 => Some (m1 * pow2 e2 ?= m2 * pow2 e1)
  end.

(** [x === y] on numbers. *)
Definition eqb (x y : number) : bool :=
  match compare x y with Some Eq => true | _ => false end.

(** [x !== y] on numbers. *)
Definition neqb (x y : number) : bool := negb (eqb x y).

(** [x < y], [x > y], [x <= y], [x >= y]: all false on [NaN]. *)
Definition ltb (x y : number) : bool :=
  match compare x y with Some Lt => true | _ => false end.
Definition gtb (x y : number) : bool :=
  match compare x y with Some Gt => true | _ => false end.
Definition leb (x y : number) : bool :=
  match compare x y with Some Lt | Some Eq => true | _ => false end.
Definition geb (x y : number) : bool :=
  match compare x y with Some Gt | Some Eq => true | _ => false end.

Definition neg (x : number) : number :=
  match x with
  | NaN => NaN
  | Infinity b => Infinity (negb b)
  | NegZero => Fin 0 0
  | Fin m e => if m =? 0 then NegZero else Fin (- m) e
  end.

Module Math.

(** [Math.floor]: the greatest integer not above the argument
    ([Z.shiftr] rounds toward minus infinity). *)
Definition floor (x : number) : number :=
  match x with
  | Fin m e => Fin (Z.shiftr m (Z.of_N e)) 0
  | _ => x
  end.

End Math.

(** *** Rounding a rational to binary64 (round to nearest, ties to even) *)

(** [floor (log2 (n / d))] for [n, d > 0]. *)
Definition ilog2_ratio (n d : Z) : Z :=
  let k := Z.log2 n - Z.log2 d in
  if (if 0 <=? k then n <? d * 2 ^ k else n * 2 ^ (- k) <? d)
  then k - 1 else k.

(** Nearest integer to [n / d] ([d > 0]), ties to even. *)
Definition round_half_even (n d : Z) : Z :=
  let q := n / d in
  match 2 * (n mod d) ?= d with
  | Lt => q
  | Gt => q + 1
  | Eq => if Z.even q then q else q + 1
  end.

(** [p / 2^e] in lowest terms. *)
Fixpoint reduce (p : positive) (e : N) : positive * N :=
  match p, e with
  | xO p', Npos _ => reduce p' (N.pred e)
  | _, _ => (p, e)
  end.

(** The finite number [m / 2^e], in lowest terms. *)
Definition dyadic (m : Z) (e : N) : number :=
  match m with
  | Z0 => Fin 0 0
  | Zpos p => let '(p', e') := reduce p e in Fin (Zpos p') e'
  | Zneg p => let '(p', e') := reduce p e in Fin (Zneg p') e'
  end.

(** The binary64 value nearest to [n / d], for [n >= 0] and [d > 0]:
    53 significant bits, smallest unit in the last place [2^-1074],
    overflow to [Infinity] from [2^1024]. *)
Definition round_to_double (n d : Z) : number :=
  if n =? 0 then Fin 0 0
  else
    let q := Z.max (ilog2_ratio n d - 52) (- 1074) in
    if 0 <=? q then
      let v := round_half_even n (d * 2 ^ q) * 2 ^ q in
      if 2 ^ 1024 <=? v then Infinity false else Fin v 0
    else dyadic (round_half_even (n * 2 ^ (- q)) d) (Z.to_N (- q)).

(** The number for the real [sign * digits * 10^exp10]. *)
Definition of_decimal (negative : bool) (digits exp10 : Z) : number :=
  let x := if 0 <=? exp10 then round_to_double (digits * 10 ^ exp10) 1
           else round_to_double digits (10 ^ (- exp10)) in
  if negative then neg x else x.

(** ** Strings

    A string is a sequence of code units; the model covers the code
    units below 256 (one [ascii] each). *)

Definition code (c : ascii) : Z := Z.of_N (N_of_ascii c).

(** WhiteSpace and LineTerminator code units: TAB, LF, VT, FF, CR,
    SPACE and NO-BREAK SPACE. *)
Definition is_white_space (c : ascii) : bool :=
  let k := code c in
  ((9 <=? k) && (k <=? 13)) || (k =? 32) || (k =? 160).

Fixpoint skip_white_space (s : string) : string :=
  match s with
  | String c s' => if is_white_space c then skip_white_space s' else s
  | EmptyString => s
  end.

Definition all_white_space (s : string) : bool :=
  match skip_white_space s with EmptyString => true | _ => false end.

(** The value of a digit character: [0-9], [a-z], [A-Z]. *)
Definition digit_of (c : ascii) : option Z :=
  let k := code c in
  if (48 <=? k) && (k <=? 57) then Some (k - 48)
  else if (97 <=? k) && (k <=? 122) then Some (k - 87)
  else if (65 <=? k) && (k <=? 90) then Some (k - 55)
  else None.

Definition digit_in (radix : Z) (c : ascii) : option Z :=
  match digit_of c with
  | Some d => if d <? radix then Some d else None
  | None => None
  end.

(** Reads the longest run of radix-[radix] digits at the head of [s]:
    the value read on top of [acc], the number of digits on top of
    [count], and the rest of the string. *)
Fixpoint scan_digits (radix : Z) (s : string) (acc count : Z)
  : Z * Z * string :=
  match s with
  | String c s' =>
      match digit_in radix c with
      | Some d => scan_digits radix s' (radix * acc + d) (count + 1)
      | None => (acc, count, s)
      end
  | EmptyString => (acc, count, s)
  end.

Fixpoint strip_prefix (p s : string) : option string :=
  match p, s with
  | EmptyString, _ => Some s
  | String a p', String b s' =>
      if Ascii.eqb a b then strip_prefix p' s' else None
  | String _ _, EmptyString => None
  end.

Definition scan_sign (s : string) : bool * string :=
  match s with
  | String "+"%char t => (false, t)
  | String "-"%char t => (true, t)
  | _ => (false, s)
  end.

(** ExponentPart, when a complete one is present. *)
Definition scan_exponent (s : string) : Z * string :=
  match s with
  | String c s1 =>
      if Ascii.eqb c "e" || Ascii.eqb c "E" then
        let '(negative, s2) := scan_sign s1 in
        let '(x, n, rest) := scan_digits 10 s2 0 0 in
        if 0 <? n then ((if negative then - x else x), rest) else (0, s)
      else (0, s)
  | EmptyString => (0, s)
  end.

Inductive magnitude : Set :=
| MInfinity
| MDecimal (digits exp10 : Z).

(** The longest prefix that is a StrUnsignedDecimalLiteral:
    [Infinity], [digits . digits? exponent?], [. digits exponent?] or
    [digits exponent?]. *)
Definition scan_unsigned_decimal (s : string) : option (magnitude * string) :=
  match strip_prefix "Infinity" s with
  | Some rest => Some (MInfinity, rest)
  | None =>
      let '(ip, ic, r1) := scan_digits 10 s 0 0 in
      match r1 with
      | String "."%char r1' =>
          let '(fp, fc, r2) := scan_digits 10 r1' ip 0 in
          if 0 <? ic + fc then
            let '(x, rest) := scan_exponent r2 in
            Some (MDecimal fp (x - fc), rest)
          else None
      | _ =>
          if 0 <? ic then
            let '(x, rest) := scan_exponent r1 in
            Some (MDecimal ip x, rest)
          else None
      end
  end.

(** The longest prefix that is a StrDecimalLiteral, as a number. *)
Definition scan_decimal (s : string) : option (number * string) :=
  let '(negative, s1) := scan_sign s in
  match scan_unsigned_decimal s1 with
  | Some (MInfinity, rest) => Some (Infinity negative, rest)
  | Some (MDecimal d x, rest) => Some (of_decimal negative d x, rest)
  | None => None
  end.

(** NonDecimalIntegerLiteral: [0b], [0o], [0x] followed by digits. *)
Definition scan_non_decimal (s : string) : option (number * string) :=
  match s with
  | String "0"%char (String p t) =>
      let radix :=
        if Ascii.eqb p "x" || Ascii.eqb p "X" then 16
        else if Ascii.eqb p "o" || Ascii.eqb p "O" then 8
        else if Ascii.eqb p "b" || Ascii.eqb p "B" then 2
        else 0 in
      if radix =? 0 then None
      else
        let '(v, n, rest) := scan_digits radix t 0 0 in
        if 0 <? n then Some (round_to_double v 1, rest) else None
  | _ => None
  end.

(** StringToNumber: white space is trimmed on both sides; the empty
    string is [+0]; anything that is not a StrNumericLiteral is [NaN]. *)
Definition StringToNumber (s : string) : number :=
  let t := skip_white_space s in
  match t with
  | EmptyString => Fin 0 0
  | _ =>
      match scan_non_decimal t with
      | Some (x, rest) => if all_white_space rest then x else NaN
      | None =>
          match scan_decimal t with
          | Some (x, rest) => if all_white_space rest then x else NaN
          | None => NaN
          end
      end
  end.

(** [parseFloat] on the string its argument converts to: leading white
    space is skipped, the longest StrDecimalLiteral prefix is read, the
    rest is ignored. *)
Definition parseFloat_string (string : string) : number :=
  match scan_decimal (skip_white_space string) with
  | Some (x, _) => x
  | None => NaN
  end.

(** [parseInt] on the string its argument converts to: leading white
    space, a sign, an optional [0x] when the radix is 0 or 16, then the
    longest run of digits; [NaN] when there is none. *)
Definition parseInt_string (string : string) (radix : Z) : number :=
  let '(negative, s) := scan_sign (skip_white_space string) in
  if (radix =? 0) || ((2 <=? radix) && (radix <=? 36)) then
    let '(R, s) :=
      if (radix =? 0) || (radix =? 16) then
        match (match strip_prefix "0x" s with
               | Some t => Some t
               | None => strip_prefix "0X" s
               end) with
        | Some t => (16, t)
        | None => ((if radix =? 0 then 10 else radix), s)
        end
      else (radix, s) in
    let '(mathInt, n, _) := scan_digits R s 0 0 in
    if n =? 0 then NaN
    else if mathInt =? 0 then (if negative then NegZero else Fin 0 0)
    else
      let x := round_to_double mathInt 1 in
      if negative then neg x else x
  else NaN.

(** *** Number to string (Number::toString, radix 10) *)

Definition decimal_digits (z : Z) : string :=
  NilZero.string_of_uint (N.to_uint (Z.to_N z)).

Fixpoint zeros (n : nat) : string :=
  match n with
  | O => ""
  | S n' => String "0" (zeros n')
  end.

(** [floor (x / 10^p)] for [x = m / 2^e]. *)
Definition scaled_floor (m : Z) (e : N) (p : Z) : Z :=
  if 0 <=? p then m / (pow2 e * 10 ^ p) else (m * 10 ^ (- p)) / pow2 e.

(** The [n] with [10^(n-1) <= x < 10^n], for [x = m / 2^e > 0]: an
    estimate from the binary logarithm, corrected by one step. *)
Definition decimal_position (m : Z) (e : N) : Z :=
  let n := (Z.log2 m - Z.of_N e) * 30103 / 100000 + 1 in
  if scaled_floor m e (n - 1) =? 0 then n - 1
  else if 0 <? scaled_floor m e n then n + 1
  else n.

(** Whether [s * 10^p] converts back to [x]. *)
Definition reads_back (s p : Z) (x : number) : bool :=
  eqb (of_decimal false s p) x.

(** The [k]-digit decimals next to [x = m / 2^e] are [lo * 10^p] and
    [(lo + 1) * 10^p] with [p = n - k]; among those that convert back to
    [x], the closer one, the even one on a tie. *)
Definition candidate (m : Z) (e : N) (n k : Z) : option Z :=
  let p := n - k in
  let lo := scaled_floor m e p in
  let hi := lo + 1 in
  match reads_back lo p (Fin m e), reads_back hi p (Fin m e) with
  | true, false => Some lo
  | false, true => Some hi
  | false, false => None
  | true, true =>
      (* compare x - lo*10^p with hi*10^p - x, that is 2x with (lo+hi)*10^p *)
      let c := if 0 <=? p then 2 * m ?= (lo + hi) * 10 ^ p * pow2 e
               else 2 * m * 10 ^ (- p) ?= (lo + hi) * pow2 e in
      match c with
      | Lt => Some lo
      | Gt => Some hi
      | Eq => Some (if Z.even lo then lo else hi)
      end
  end.

(** The shortest digit string: the least [k] (tried from [k] upward,
    [fuel] times) with a candidate, as [(n, k, s)]. *)
Fixpoint shortest (fuel : nat) (m : Z) (e : N) (n k : Z) : Z * Z * Z :=
  match fuel with
  | O => (n, k, scaled_floor m e (n - k))
  | S fuel' =>
      match candidate m e n k with
      | Some s => if s =? 10 ^ k then (n + 1, k, 10 ^ (k - 1)) else (n, k, s)
      | None => shortest fuel' m e n (k + 1)
      end
  end.

Definition format_decimal (n k s : Z) : string :=
  let ds := decimal_digits s in
  if (k <=? n) && (n <=? 21) then ds ++ zeros (Z.to_nat (n - k))
  else if (0 <? n) && (n <=? 21) then
    substring 0 (Z.to_nat n) ds ++ "." ++
    substring (Z.to_nat n) (Z.to_nat (k - n)) ds
  else if (-6 <? n) && (n <=? 0) then "0." ++ zeros (Z.to_nat (- n)) ++ ds
  else
    let x := n - 1 in
    let xs := (if x <? 0 then "-" else "+") ++ decimal_digits (Z.abs x) in
    if k =? 1 then ds ++ "e" ++ xs
    else substring 0 1 ds ++ "." ++ substring 1 (Z.to_nat (k - 1)) ds
         ++ "e" ++ xs.

Definition positive_to_string (m : Z) (e : N) : string :=
  let '(n, k, s) := shortest 17 m e (decimal_position m e) 1 in
  format_decimal n k s.

Definition NumberToString (x : number) : string :=
  match x with
  | NaN => "NaN"
  | Infinity false => "Infinity"
  | Infinity true => "-Infinity"
  | NegZero => "0"
  | Fin m e =>
      if m =? 0 then "0"
      else if m <? 0 then "-" ++ positive_to_string (- m) e
      else positive_to_string m e
  end.

(** ** Values

    The values a scalar can be handed: the primitives (symbols and
    BigInts included), arrays, and objects.  Of an object the model keeps
    what the source and the conversions look at: whether it is callable
    (a function), its [Symbol.toPrimitive] hook, and its [valueOf],
    [toString] and [toJSON] properties, own or inherited.  Methods are
    pure: a call returns a value and has no effect.  An array has the
    methods of [Array.prototype]. *)

#[local] Unset Elimination Schemes.

Inductive value : Type :=
| Undefined
| Null
| Bool (b : bool)
| Num (n : number)
| BigInt (z : Z)
| Str (s : string)
| Sym (description : option string)
| Arr (items : list value)
| Obj (callable : bool) (toPrimitive : hook)
      (valueOf : method) (toString : method) (toJSON : method)

(** A property read as a method: not a function, the inherited
    [Object.prototype.valueOf] that returns the receiver, or a function
    returning [result]. *)
with method : Type :=
| NotFunction
| ReturnsThis
| Returns (result : value)

(** The [Symbol.toPrimitive] property: [undefined] or [null], a value
    that is not callable, or a function of the hint. *)
with hook : Type :=
| NoHook
| BadHook
| Hook (for_number : value) (for_string : value).

#[local] Set Elimination Schemes.

(** Not an Object: neither an array nor an object nor a function. *)
Definition is_primitive (v : value) : bool :=
  match v with
  | Arr _ | Obj _ _ _ _ _ => false
  | _ => true
  end.

Fixpoint join (sep : string) (l : list string) : string :=
  match l with
  | [] => ""
  | [x] => x
  | x :: rest => x ++ sep ++ join sep rest
  end.

(** The results of a list of calls made in order: the first exception
    ends them. *)
Fixpoint in_order {A : Type} (l : list (completion A)) : completion (list A) :=
  match l with
  | [] => Return []
  | c :: rest =>
      a <- c ;;
      rest' <- in_order rest ;;
      Return (a :: rest')
  end.

(** The primitive a call of the method yields, when the property is a
    function and its result is not an Object. *)
Definition primitive_result (m : method) : option value :=
  match m with
  | Returns r => if is_primitive r then Some r else None
  | ReturnsThis | NotFunction => None
  end.

(** OrdinaryToPrimitive: [toString] then [valueOf] for the string hint,
    [valueOf] then [toString] for the number hint; a [TypeError] when
    neither gives a primitive. *)
Definition OrdinaryToPrimitive (string_hint : bool)
    (valueOf toString : method) : completion value :=
  let '(first, second) :=
    if string_hint then (toString, valueOf) else (valueOf, toString) in
  match primitive_result first with
  | Some p => Return p
  | None =>
      match primitive_result second with
      | Some p => Return p
      | None => Throw ConversionError
      end
  end.

(** ToPrimitive of an object: its [Symbol.toPrimitive] function when it
    has one, whose result must be a primitive; OrdinaryToPrimitive
    otherwise. *)
Definition ObjectToPrimitive (string_hint : bool) (toPrimitive : hook)
    (valueOf toString : method) : completion value :=
  match toPrimitive with
  | NoHook => OrdinaryToPrimitive string_hint valueOf toString
  | BadHook => Throw ConversionError
  | Hook for_number for_string =>
      let r := if string_hint then for_string else for_number in
      if is_primitive r then Return r else Throw ConversionError
  end.

(** BigInt::toString. *)
Definition BigIntToString (z : Z) : string :=
  if z <? 0 then "-" ++ decimal_digits (- z) else decimal_digits z.

(** The number nearest to a BigInt. *)
Definition BigIntToNumber (z : Z) : number :=
  if z <? 0 then neg (round_to_double (- z) 1) else round_to_double z 1.

(** ToString of a primitive: a [TypeError] on a symbol. *)
Definition PrimitiveToString (p : value) : completion string :=
  match p with
  | Undefined => Return "undefined"
  | Null => Return "null"
  | Bool b => Return (if b then "true" else "false")
  | Num n => Return (NumberToString n)
  | BigInt z => Return (BigIntToString z)
  | Str s => Return s
  | Sym _ => Throw ConversionError
  | Arr _ | Obj _ _ _ _ _ => Throw ConversionError
  end.

(** ToString.  An array is its elements joined by commas
    ([Array.prototype.join]: [undefined] and [null] elements are empty,
    the others are converted in order); an object is converted to a
    primitive with the string hint first. *)
Fixpoint ToString (v : value) : completion string :=
  match v with
  | Arr items =>
      texts <- in_order (map (fun x => match x with
                                       | Undefined | Null => Return ""
                                       | _ => ToString x
                                       end) items) ;;
      Return (join "," texts)
  | Obj _ toPrimitive valueOf toString _ =>
      p <- ObjectToPrimitive true toPrimitive valueOf toString ;;
      PrimitiveToString p
  | _ => PrimitiveToString v
  end.

(** ToPrimitive.  The [valueOf] of an array returns the array, so both
    hints end in its [toString]. *)
Definition ToPrimitive (string_hint : bool) (v : value) : completion value :=
  match v with
  | Arr _ => s <- ToString v ;; Return (Str s)
  | Obj _ toPrimitive valueOf toString _ =>
      ObjectToPrimitive string_hint toPrimitive valueOf toString
  | _ => Return v
  end.

(** The number of a primitive, as [Number] gives it: a [TypeError] on a
    symbol, the nearest number for a BigInt. *)
Definition PrimitiveToNumber (p : value) : completion number :=
  match p with
  | Undefined => Return NaN
  | Null => Return (Fin 0 0)
  | Bool b => Return (if b then Fin 1 0 else Fin 0 0)
  | Num n => Return n
  | BigInt z => Return (BigIntToNumber z)
  | Str s => Return (StringToNumber s)
  | Sym _ => Throw ConversionError
  | Arr _ | Obj _ _ _ _ _ => Throw ConversionError
  end.

Definition ToBoolean (v : value) : bool :=
  match v with
  | Undefined | Null => false
  | Bool b => b
  | Num n => negb (eqb n (Fin 0 0)) && eqb n n
  | BigInt z => negb (z =? 0)
  | Str s => negb (String.eqb s "")
  | Sym _ | Arr _ | Obj _ _ _ _ _ => true
  end.

(** [v === s] for a string [s]: no conversion takes place. *)
Definition strict_equals_string (v : value) (s : string) : bool :=
  match v with
  | Str t => String.eqb t s
  | _ => false
  end.

(** [typeof v == 'object']: a function has the type ['function']. *)
Definition typeof_is_object (v : value) : bool :=
  match v with
  | Null | Arr _ => true
  | Obj callable _ _ _ _ => negb callable
  | _ => false
  end.

(** The property [v.valueOf] / [v.toJSON] of an object or array. *)
Definition get_valueOf (v : value) : method :=
  match v with
  | Obj _ _ valueOf _ _ => valueOf
  | Arr _ => ReturnsThis
  | _ => NotFunction
  end.

Definition get_toJSON (v : value) : method :=
  match v with
  | Obj _ _ _ _ toJSON => toJSON
  | _ => NotFunction
  end.

(** [typeof f === 'function'] *)
Definition is_function (f : method) : bool :=
  match f with
  | NotFunction => false
  | _ => true
  end.

(** The call [this.f()]. *)
Definition call (f : method) (this : value) : value :=
  match f with
  | Returns r => r
  | ReturnsThis => this
  | NotFunction => Undefined
  end.

Module Array.

Definition isArray (v : value) : bool :=
  match v with
  | Arr _ => true
  | _ => false
  end.

End Array.

(** The global functions [Number], [Boolean], [String], [parseInt] and
    [parseFloat].  [Number] converts to a primitive with the number hint;
    [String] describes a symbol and converts anything else with
    ToString; [parseInt] and [parseFloat] convert their argument to a
    string first. *)
Definition Number (v : value) : completion number :=
  p <- ToPrimitive false v ;; PrimitiveToNumber p.

Definition Boolean (v : value) : bool := ToBoolean v.

Definition parseInt (string : value) (radix : Z) : completion number :=
  s <- ToString string ;; Return (parseInt_string s radix).

Definition parseFloat (string : value) : completion number :=
  s <- ToString string ;; Return (parseFloat_string s).

Definition String (v : value) : completion string :=
  match v with
  | Sym description =>
      Return ("Symbol(" ++ match description with
                           | Some d => d
                           | None => ""
                           end ++ ")")
  | _ => ToString v
  end.

End JS.

(* ================================================================== *)
(** * Collaborators of the module *)
(* ================================================================== *)

(** Modelled from the spec: [Kind] of [language/kinds], the discriminator
    of a literal node: "one of INT, FLOAT, STRING, BOOLEAN, plus others
    irrelevant to this core". *)
Module Kind.

Inductive t : Set :=
| INT
| FLOAT
| STRING
| BOOLEAN
| OTHER (tag : string).

(** [k1 === k2] *)
Definition eqb (k1 k2 : t) : bool :=
  match k1, k2 with
  | INT, INT | FLOAT, FLOAT | STRING, STRING | BOOLEAN, BOOLEAN => true
  | OTHER a, OTHER b => String.eqb a b
  | _, _ => false
  end.

End Kind.

(** Modelled from the spec: the literal nodes of [language/ast], "a
    [kind] discriminator and a raw textual [value] for INT/FLOAT", the
    literal text of a STRING node and the literal boolean of a BOOLEAN
    node. *)
Inductive ValueNode : Type :=
| INT (text : string)
| FLOAT (text : string)
| STRING (text : string)
| BOOLEAN (b : bool)
| OTHER (tag : string).

(** [ast.kind] *)
Definition kind (ast : ValueNode) : Kind.t :=
  match ast with
  | INT _ => Kind.INT
  | FLOAT _ => Kind.FLOAT
  | STRING _ => Kind.STRING
  | BOOLEAN _ => Kind.BOOLEAN
  | OTHER tag => Kind.OTHER tag
  end.

(** [ast.value] *)
Definition node_value (ast : ValueNode) : JS.value :=
  match ast with
  | INT text | FLOAT text | STRING text => JS.Str text
  | BOOLEAN b => JS.Bool b
  | OTHER _ => JS.Undefined
  end.

(** The spec's name for the [undefined] a [parseLiteral] returns. *)
Definition NotApplicable : completion JS.value := Return JS.Undefined.

(** Modelled from the spec: [GraphQLScalarType] of [type/definition], an
    "immutable record { name, description, serialize, parseValue,
    parseLiteral }"; the class keeps the three functions of its
    configuration as they are given. *)
Record GraphQLScalarType : Type := {
  name : string;
  description : string;
  serialize : JS.value -> completion JS.value;
  parseValue : JS.value -> completion JS.value;
  parseLiteral : ValueNode -> completion JS.value
}.

(** Modelled from the spec: [GraphQLNamedType] of [type/definition]; of a
    named type this module reads the [name] only. *)
Inductive GraphQLNamedType : Type :=
| ScalarType (t : GraphQLScalarType)
| OtherNamedType (type_name : string).

Definition named_type_name (type : GraphQLNamedType) : string :=
  match type with
  | ScalarType t => name t
  | OtherNamedType type_name => type_name
  end.

(** Modelled from the spec: [isObjectLike] of [jsutils/isObjectLike], the
    test for "an object-like value": [typeof value == 'object'] and not
    [null]. *)
Definition isObjectLike (v : JS.value) : bool :=
  JS.typeof_is_object v && negb (match v with JS.Null => true | _ => false end).

(* ================================================================== *)
(** * The source: [src/type/scalars.ts] *)
(* ================================================================== *)

Definition GRAPHQL_MAX_INT : JS.number := JS.of_Z 2147483647.

Definition GRAPHQL_MIN_INT : JS.number := JS.of_Z (-2147483648).

Definition GraphQLInt : GraphQLScalarType := {|
  name := "Int";
  description :=
    "The `Int` scalar type represents non-fractional signed whole numeric values. Int can represent values between -(2^31) and 2^31 - 1.";

  serialize := fun outputValue =>
    if JS.strict_equals_string outputValue "" then
      Throw (TypeError
        "Int cannot represent non 32-bit signed integer value: (empty string)")
    else
      num <- JS.Number outputValue ;;
      if JS.neqb num num || JS.gtb num GRAPHQL_MAX_INT
         || JS.ltb num GRAPHQL_MIN_INT then
        text <- JS.String outputValue ;;
        Throw (TypeError
          ("Int cannot represent non 32-bit signed integer value: " ++ text))
      else
        let int := JS.Math.floor num in
        if JS.neqb int num then
          text <- JS.String outputValue ;;
          Throw (TypeError
            ("Int cannot represent non-integer value: " ++ text))
        else Return (JS.Num int);

  parseValue := fun inputValue =>
    if JS.strict_equals_string inputValue "" then
      Throw (TypeError
        "Int cannot represent non 32-bit signed integer value: (empty string)")
    else
      num <- JS.Number inputValue ;;
      if JS.neqb num num || JS.gtb num GRAPHQL_MAX_INT
         || JS.ltb num GRAPHQL_MIN_INT then
        text <- JS.String inputValue ;;
        Throw (TypeError
          ("Int cannot represent non 32-bit signed integer value: " ++ text))
      else
        let int := JS.Math.floor num in
        if JS.neqb int num then
          text <- JS.String inputValue ;;
          Throw (TypeError
            ("Int cannot represent non-integer value: " ++ text))
        else Return (JS.Num int);

  parseLiteral := fun ast =>
    if Kind.eqb (kind ast) Kind.INT then
      num <- JS.parseInt (node_value ast) 10 ;;
      if JS.leb num GRAPHQL_MAX_INT && JS.geb num GRAPHQL_MIN_INT then
        Return (JS.Num num)
      else Return JS.Undefined
    else Return JS.Undefined
|}.

Definition GraphQLFloat : GraphQLScalarType := {|
  name := "Float";
  description :=
    "The `Float` scalar type represents signed double-precision fractional values as specified by [IEEE 754](https://en.wikipedia.org/wiki/IEEE_floating_point).";

  serialize := fun outputValue =>
    if JS.strict_equals_string outputValue "" then
      Throw (TypeError
        "Float cannot represent non numeric value: (empty string)")
    else
      num <- JS.Number outputValue ;;
      if JS.eqb num num then Return (JS.Num num)
      else
        text <- JS.String outputValue ;;
        Throw (TypeError
          ("Float cannot represent non numeric value: " ++ text));

  parseValue := fun inputValue =>
    if JS.strict_equals_string inputValue "" then
      Throw (TypeError
        "Float cannot represent non numeric value: (empty string)")
    else
      num <- JS.Number inputValue ;;
      if JS.eqb num num then Return (JS.Num num)
      else
        text <- JS.String inputValue ;;
        Throw (TypeError
          ("Float cannot represent non numeric value: " ++ text));

  parseLiteral := fun ast =>
    if Kind.eqb (kind ast) Kind.FLOAT || Kind.eqb (kind ast) Kind.INT
    then
      num <- JS.parseFloat (node_value ast) ;;
      Return (JS.Num num)
    else Return JS.Undefined
|}.

Definition GraphQLString : GraphQLScalarType := {|
  name := "String";
  description :=
    "The `String` scalar type represents textual data, represented as UTF-8 character sequences. The String type is most often used by GraphQL to represent free-form human-readable text.";

  serialize := fun outputValue =>
    if JS.Array.isArray outputValue then
      text <- JS.String outputValue ;;
      Throw (TypeError
        ("String cannot represent an array value: [" ++ text ++ "]"))
    else
      text <- JS.String outputValue ;;
      Return (JS.Str text);

  parseValue := fun inputValue =>
    if JS.Array.isArray inputValue then
      text <- JS.String inputValue ;;
      Throw (TypeError
        ("String cannot represent an array value: [" ++ text ++ "]"))
    else
      text <- JS.String inputValue ;;
      Return (JS.Str text);

  parseLiteral := fun ast =>
    if Kind.eqb (kind ast) Kind.STRING then Return (node_value ast)
    else Return JS.Undefined
|}.

Definition GraphQLBoolean : GraphQLScalarType := {|
  name := "Boolean";
  description := "The `Boolean` scalar type represents `true` or `false`.";

  serialize := fun outputValue => Return (JS.Bool (JS.Boolean outputValue));
  parseValue := fun inputValue => Return (JS.Bool (JS.Boolean inputValue));
  parseLiteral := fun ast =>
    if Kind.eqb (kind ast) Kind.BOOLEAN then Return (node_value ast)
    else Return JS.Undefined
|}.

(** The double quote, for the two quoted examples of the description. *)
Definition dquote : string := String (ascii_of_nat 34) EmptyString.

Definition GraphQLID : GraphQLScalarType := {|
  name := "ID";
  description :=
    "The `ID` scalar type represents a unique identifier, often used to refetch an object or as key for a cache. The ID type appears in a JSON response as a String; however, it is not intended to be human-readable. When expected as an input type, any string (such as `"
    ++ dquote ++ "4" ++ dquote ++
    "`) or integer (such as `4`) input value will be accepted as an ID.";

  serialize := fun outputValue =>
    text <- JS.String outputValue ;; Return (JS.Str text);
  parseValue := fun inputValue =>
    text <- JS.String inputValue ;; Return (JS.Str text);
  parseLiteral := fun ast =>
    if Kind.eqb (kind ast) Kind.STRING || Kind.eqb (kind ast) Kind.INT
    then Return (node_value ast)
    else Return JS.Undefined
|}.

Definition specifiedScalarTypes : list GraphQLScalarType :=
  [ GraphQLString;
    GraphQLInt;
    GraphQLFloat;
    GraphQLBoolean;
    GraphQLID ].

Definition isSpecifiedScalarType (type : GraphQLNamedType) : bool :=
  existsb (fun t => String.eqb (named_type_name type) (name t))
          specifiedScalarTypes.

(** Support serializing objects with custom valueOf() or toJSON()
    functions.  The two early [return]s are the [Some] of the inner
    match. *)
Definition serializeObject (outputValue : JS.value) : JS.value :=
  if isObjectLike outputValue then
    match
      (if JS.is_function (JS.get_valueOf outputValue) then
         let valueOfResult :=
           JS.call (JS.get_valueOf outputValue) outputValue in
         if negb (isObjectLike valueOfResult) then Some valueOfResult
         else None
       else None)
    with
    | Some result => result
    | None =>
        if JS.is_function (JS.get_toJSON outputValue) then
          JS.call (JS.get_toJSON outputValue) outputValue
        else outputValue
    end
  else outputValue.

(* ================================================================== *)
(** * Vocabulary of the properties *)
(* ================================================================== *)

(** The signed 32-bit range, on integers. *)
Definition int32 (z : Z) : bool :=
  (-2147483648 <=? z) && (z <=? 2147483647).

Definition is_NaN (x : JS.number) : bool :=
  match x with
  | JS.NaN => true
  | _ => false
  end.

(** [x] is below [-2147483648] or above [2147483647]: for [m / 2^e],
    [m < -2147483648 * 2^e] or [2147483647 * 2^e < m]. *)
Definition outside_int32 (x : JS.number) : bool :=
  match x with
  | JS.NaN | JS.NegZero => false
  | JS.Infinity _ => true
  | JS.Fin m e =>
      (m <? -2147483648 * JS.pow2 e) || (2147483647 * JS.pow2 e <? m)
  end.

(** [x] is an integer: [2^e] divides [m]. *)
Definition is_integer (x : JS.number) : bool :=
  match x with
  | JS.NaN | JS.Infinity _ => false
  | JS.NegZero => true
  | JS.Fin m e => m mod JS.pow2 e =? 0
  end.

(** The validation routine of the [Int] scalar on the mathematical value
    of the converted number, with the messages of the source. *)
Definition Int_coerce (v : JS.value) : completion JS.value :=
  if JS.strict_equals_string v "" then
    Throw (TypeError
      "Int cannot represent non 32-bit signed integer value: (empty string)")
  else
    num <- JS.Number v ;;
    if is_NaN num || outside_int32 num then
      text <- JS.String v ;;
      Throw (TypeError
        ("Int cannot represent non 32-bit signed integer value: " ++ text))
    else if is_integer num then
      Return (JS.Num (match num with
                      | JS.Fin m e => JS.of_Z (m / JS.pow2 e)
                      | _ => num
                      end))
    else
      text <- JS.String v ;;
      Throw (TypeError ("Int cannot represent non-integer value: " ++ text)).

(** The raw text read as a base-10 integer, exactly: white space, a
    sign, then digits; the sign and the magnitude, [None] without a
    digit. *)
Definition base10_integer (text : string) : option (bool * Z) :=
  let '(negative, s) := JS.scan_sign (JS.skip_white_space text) in
  let '(z, n, _) := JS.scan_digits 10 s 0 0 in
  if n =? 0 then None else Some (negative, z).

(** The decimal text of an integer, as the lexer produces INT tokens. *)
Definition decimal_text (z : Z) : string :=
  if z <? 0 then "-" ++ JS.decimal_digits (- z) else JS.decimal_digits z.


(** A scalar definition distinct from the built-in [Int] that reuses its
    name. *)
Definition custom_Int : GraphQLScalarType := {|
  name := "Int";
  description := "A custom scalar reusing a reserved name";
  serialize := fun v => Return v;
  parseValue := fun v => Return v;
  parseLiteral := fun _ => Return JS.Undefined
|}.

(** [Object.create(null)]: an object with no property at all, hence with
    no primitive conversion. *)
Definition null_prototype_object : JS.value :=
  JS.Obj false JS.NoHook JS.NotFunction JS.NotFunction JS.NotFunction.

(** An ordinary object, [{ valueOf, toJSON, toString }] on top of
    [Object.prototype]: not callable, no [Symbol.toPrimitive]. *)
Definition ordinary_object (valueOf toJSON : JS.method) (text : string)
  : JS.value :=
  JS.Obj false JS.NoHook valueOf (JS.Returns (JS.Str text)) toJSON.

(* ================================================================== *)
(** * The runtime model on known inputs *)
(* ================================================================== *)

(** Results of the runtime's conversions, as a JavaScript engine gives
    them. *)

Example Number_of_empty_string : JS.Number (JS.Str "") = Return (JS.Fin 0 0).
Proof. reflexivity. Qed.

Example Number_trims_white_space : JS.Number (JS.Str " 12 ") = Return (JS.Fin 12 0).
Proof. vm_compute. reflexivity. Qed.

Example Number_of_two_numerals : JS.Number (JS.Str "1 2") = Return JS.NaN.
Proof. vm_compute. reflexivity. Qed.

Example Number_of_hexadecimal : JS.Number (JS.Str "0x1F") = Return (JS.Fin 31 0).
Proof. vm_compute. reflexivity. Qed.

Example Number_of_exponent : JS.Number (JS.Str "-.5e1") = Return (JS.Fin (-5) 0).
Proof. vm_compute. reflexivity. Qed.

Example Number_overflows : JS.Number (JS.Str "1e400") = Return (JS.Infinity false).
Proof. vm_compute. reflexivity. Qed.

Example Number_underflows : JS.Number (JS.Str "-1e-400") = Return JS.NegZero.
Proof. vm_compute. reflexivity. Qed.

Example Number_rounds_to_binary64 :
  JS.Number (JS.Str "0.1") = Return (JS.Fin 3602879701896397 55) /\
  JS.Number (JS.Str "9007199254740993") = Return (JS.Fin 9007199254740992 0) /\
  JS.Number (JS.Str "2147483647.0000000000001") = Return (JS.Fin 2147483647 0) /\
  JS.Number (JS.Str "5e-324") = Return (JS.Fin 1 1074).
Proof. repeat split; vm_compute; reflexivity. Qed.

Example Number_of_other_values :
  JS.Number JS.Undefined = Return JS.NaN /\
  JS.Number JS.Null = Return (JS.Fin 0 0) /\
  JS.Number (JS.Bool true) = Return (JS.Fin 1 0) /\
  JS.Number (JS.Arr []) = Return (JS.Fin 0 0) /\
  JS.Number (JS.Arr [JS.Str "5"]) = Return (JS.Fin 5 0) /\
  JS.Number (JS.Arr [JS.Num (JS.of_Z 1); JS.Num (JS.of_Z 2)]) = Return JS.NaN /\
  JS.Number (ordinary_object JS.ReturnsThis JS.NotFunction "[object Object]") = Return JS.NaN /\
  JS.Number (ordinary_object (JS.Returns (JS.Num (JS.of_Z 7))) JS.NotFunction "seven")
  = Return (JS.Fin 7 0).
Proof. repeat split; vm_compute; reflexivity. Qed.

Example String_of_numbers :
  JS.String (JS.Num (JS.of_Z 42)) = Return "42" /\
  JS.String (JS.Num (JS.Fin (-3) 1)) = Return "-1.5" /\
  JS.String (JS.Num (JS.Fin 3602879701896397 55)) = Return "0.1" /\
  JS.String (JS.Num (JS.StringToNumber ("0.30000000000000004")))
  = Return "0.30000000000000004" /\
  JS.String (JS.Num (JS.StringToNumber ("123456789012345680000")))
  = Return "123456789012345680000" /\
  JS.String (JS.Num (JS.StringToNumber ("1000000000000000000000"))) = Return "1e+21" /\
  JS.String (JS.Num (JS.StringToNumber ("0.000001"))) = Return "0.000001" /\
  JS.String (JS.Num (JS.StringToNumber ("0.0000001"))) = Return "1e-7" /\
  JS.String (JS.Num (JS.Fin 1 1074)) = Return "5e-324" /\
  JS.String (JS.Num JS.NegZero) = Return "0" /\
  JS.String (JS.Num JS.NaN) = Return "NaN" /\
  JS.String (JS.Num (JS.Infinity true)) = Return "-Infinity".
Proof. repeat split; vm_compute; reflexivity. Qed.

Example String_of_other_values :
  JS.String JS.Undefined = Return "undefined" /\
  JS.String JS.Null = Return "null" /\
  JS.String (JS.Bool false) = Return "false" /\
  JS.String (JS.Arr [JS.Num (JS.of_Z 1); JS.Num (JS.of_Z 2)]) = Return "1,2" /\
  JS.String (JS.Arr [JS.Null; JS.Arr [JS.Str "a"; JS.Undefined];
                     JS.Bool true]) = Return ",a,,true" /\
  JS.String (ordinary_object JS.ReturnsThis JS.NotFunction "[object Object]")
  = Return "[object Object]".
Proof. repeat split; vm_compute; reflexivity. Qed.

Example Boolean_of_values :
  JS.Boolean (JS.Num (JS.of_Z 0)) = false /\
  JS.Boolean (JS.Num JS.NegZero) = false /\
  JS.Boolean (JS.Num JS.NaN) = false /\
  JS.Boolean (JS.Num (JS.Fin 1 1)) = true /\
  JS.Boolean (JS.Str "") = false /\
  JS.Boolean (JS.Str "a") = true /\
  JS.Boolean (JS.Arr []) = true /\
  JS.Boolean JS.Null = false.
Proof. repeat split; vm_compute; reflexivity. Qed.

Example parseInt_of_texts :
  JS.parseInt (JS.Str "123") 10 = Return (JS.Fin 123 0) /\
  JS.parseInt (JS.Str "007") 10 = Return (JS.Fin 7 0) /\
  JS.parseInt (JS.Str " -12px") 10 = Return (JS.Fin (-12) 0) /\
  JS.parseInt (JS.Str "-0") 10 = Return JS.NegZero /\
  JS.parseInt (JS.Str "0x1F") 10 = Return (JS.Fin 0 0) /\
  JS.parseInt (JS.Str "0x1F") 16 = Return (JS.Fin 31 0) /\
  JS.parseInt (JS.Str "1.9") 10 = Return (JS.Fin 1 0) /\
  JS.parseInt (JS.Str "") 10 = Return JS.NaN /\
  JS.parseInt (JS.Str "abc") 10 = Return JS.NaN.
Proof. repeat split; vm_compute; reflexivity. Qed.

Example parseFloat_of_texts :
  JS.parseFloat (JS.Str "2.5") = Return (JS.Fin 5 1) /\
  JS.parseFloat (JS.Str "4") = Return (JS.Fin 4 0) /\
  JS.parseFloat (JS.Str " 4.5abc") = Return (JS.Fin 9 1) /\
  JS.parseFloat (JS.Str ".5") = Return (JS.Fin 1 1) /\
  JS.parseFloat (JS.Str "1e") = Return (JS.Fin 1 0) /\
  JS.parseFloat (JS.Str "0x10") = Return (JS.Fin 0 0) /\
  JS.parseFloat (JS.Str "-Infinityx") = Return (JS.Infinity true) /\
  JS.parseFloat (JS.Str "abc") = Return JS.NaN.
Proof. repeat split; vm_compute; reflexivity. Qed.

(** The [Boolean] scalar on the examples of the spec. *)
Example Boolean_scalar_examples :
  serialize GraphQLBoolean (JS.Num (JS.of_Z 0)) = Return (JS.Bool false) /\
  serialize GraphQLBoolean (JS.Str "a") = Return (JS.Bool true) /\
  parseLiteral GraphQLBoolean (BOOLEAN true) = Return (JS.Bool true).
Proof. repeat split; reflexivity. Qed.

(** Only the empty string itself is turned away before the numeric
    conversion: other values converting to 0 are coerced to 0. *)
Example Int_serialize_values_converting_to_zero :
  serialize GraphQLInt (JS.Str " ") = Return (JS.Num (JS.of_Z 0)) /\
  serialize GraphQLInt JS.Null = Return (JS.Num (JS.of_Z 0)) /\
  serialize GraphQLInt (JS.Arr []) = Return (JS.Num (JS.of_Z 0)) /\
  serialize GraphQLInt (JS.Bool false) = Return (JS.Num (JS.of_Z 0)).
Proof. repeat split; vm_compute; reflexivity. Qed.

(** Values without a conversion: the runtime throws its [TypeError]. *)
Example conversions_that_throw :
  JS.String null_prototype_object = Throw ConversionError /\
  JS.Number null_prototype_object = Throw ConversionError /\
  JS.Number (JS.Sym (Some "id")) = Throw ConversionError /\
  JS.String (JS.Sym (Some "id")) = Return "Symbol(id)" /\
  JS.String (JS.Arr [JS.Num (JS.of_Z 1); null_prototype_object])
  = Throw ConversionError /\
  JS.String (JS.Arr [JS.Sym None]) = Throw ConversionError /\
  JS.Number (JS.Obj false JS.BadHook JS.ReturnsThis
                    (JS.Returns (JS.Str "x")) JS.NotFunction)
  = Throw ConversionError.
Proof. repeat split; reflexivity. Qed.

(** [Symbol.toPrimitive] comes before [valueOf] and [toString]; a
    function returned by [valueOf] is not a primitive; a BigInt is
    converted to the nearest number. *)
Example conversions_of_objects :
  JS.Number (JS.Obj false (JS.Hook (JS.Num (JS.of_Z 2)) (JS.Str "two"))
                    (JS.Returns (JS.Num (JS.of_Z 1)))
                    (JS.Returns (JS.Str "one")) JS.NotFunction)
  = Return (JS.Fin 2 0) /\
  JS.String (JS.Obj false (JS.Hook (JS.Num (JS.of_Z 2)) (JS.Str "two"))
                    (JS.Returns (JS.Num (JS.of_Z 1)))
                    (JS.Returns (JS.Str "one")) JS.NotFunction)
  = Return "two" /\
  JS.Number (JS.Obj false JS.NoHook
               (JS.Returns (JS.Obj true JS.NoHook JS.ReturnsThis
                              (JS.Returns (JS.Str "function () {}"))
                              JS.NotFunction))
               (JS.Returns (JS.Str "7")) JS.NotFunction)
  = Return (JS.Fin 7 0) /\
  JS.String (JS.Obj false JS.NoHook (JS.Returns (JS.Str "v"))
                    JS.NotFunction JS.NotFunction)
  = Return "v" /\
  JS.Number (JS.BigInt 9007199254740993) = Return (JS.Fin 9007199254740992 0) /\
  JS.String (JS.BigInt (-12)) = Return "-12" /\
  JS.Boolean (JS.BigInt 0) = false /\
  JS.Boolean (JS.Sym None) = true.
Proof. repeat split; vm_compute; reflexivity. Qed.

(** [Number] asks [Symbol.toPrimitive] where [serializeObject] calls
    [valueOf]: on an object with both, the two disagree. *)
Example hook_and_valueOf_disagree :
  serialize GraphQLInt
    (JS.Obj false (JS.Hook (JS.Num (JS.of_Z 2)) (JS.Str "two"))
            (JS.Returns (JS.Num (JS.of_Z 1))) JS.NotFunction JS.NotFunction)
  = Return (JS.Num (JS.of_Z 2)) /\
  serialize GraphQLInt
    (serializeObject
       (JS.Obj false (JS.Hook (JS.Num (JS.of_Z 2)) (JS.Str "two"))
               (JS.Returns (JS.Num (JS.of_Z 1))) JS.NotFunction
               JS.NotFunction))
  = Return (JS.Num (JS.of_Z 1)).
Proof. split; vm_compute; reflexivity. Qed.

(* ================================================================== *)
(** * Numbers: comparison, floor and rounding *)
(* ================================================================== *)

Lemma pow2_pos e : 0 < JS.pow2 e.
Proof. unfold JS.pow2. apply Z.pow_pos_nonneg; lia. Qed.

Lemma pow2_0 : JS.pow2 0 = 1.
Proof. reflexivity. Qed.

Lemma compare_Fin m1 e1 m2 e2 :
  JS.compare (JS.Fin m1 e1) (JS.Fin m2 e2)
  = Some (m1 * JS.pow2 e2 ?= m2 * JS.pow2 e1).
Proof. reflexivity. Qed.

Lemma eqb_Fin_refl m e : JS.eqb (JS.Fin m e) (JS.Fin m e) = true.
Proof. unfold JS.eqb. rewrite compare_Fin, Z.compare_refl. reflexivity. Qed.

(** [num !== num] holds of [NaN] only. *)
Lemma eqb_refl_not_NaN x : JS.eqb x x = negb (is_NaN x).
Proof.
  destruct x as [ | [|] | | m e]; try reflexivity. apply eqb_Fin_refl.
Qed.

Lemma gtb_Fin_of_Z m e k :
  JS.gtb (JS.Fin m e) (JS.of_Z k) = (k * JS.pow2 e <? m).
Proof.
  unfold JS.gtb, JS.of_Z. rewrite compare_Fin, pow2_0, Z.mul_1_r.
  unfold Z.ltb. rewrite (Z.compare_antisym m).
  destruct (m ?= k * JS.pow2 e); reflexivity.
Qed.

Lemma ltb_Fin_of_Z m e k :
  JS.ltb (JS.Fin m e) (JS.of_Z k) = (m <? k * JS.pow2 e).
Proof.
  unfold JS.ltb, JS.of_Z. rewrite compare_Fin, pow2_0, Z.mul_1_r.
  unfold Z.ltb. destruct (m ?= k * JS.pow2 e); reflexivity.
Qed.

Lemma leb_of_Z a b : JS.leb (JS.of_Z a) (JS.of_Z b) = (a <=? b).
Proof.
  unfold JS.leb, JS.of_Z. rewrite compare_Fin, pow2_0, !Z.mul_1_r.
  unfold Z.leb. destruct (a ?= b); reflexivity.
Qed.

Lemma geb_of_Z a b : JS.geb (JS.of_Z a) (JS.of_Z b) = (b <=? a).
Proof.
  unfold JS.geb, JS.of_Z. rewrite compare_Fin, pow2_0, !Z.mul_1_r.
  unfold Z.leb. rewrite (Z.compare_antisym a).
  destruct (a ?= b); reflexivity.
Qed.

Lemma floor_Fin m e : JS.Math.floor (JS.Fin m e) = JS.of_Z (m / JS.pow2 e).
Proof.
  unfold JS.Math.floor, JS.of_Z, JS.pow2.
  rewrite Z.shiftr_div_pow2 by lia. reflexivity.
Qed.

Lemma neqb_of_Z_Fin k m e :
  JS.neqb (JS.of_Z k) (JS.Fin m e) = negb (k * JS.pow2 e =? m).
Proof.
  unfold JS.neqb, JS.eqb, JS.of_Z. rewrite compare_Fin, pow2_0, Z.mul_1_r.
  destruct (Z.compare_spec (k * JS.pow2 e) m);
    destruct (Z.eqb_spec (k * JS.pow2 e) m); try reflexivity; lia.
Qed.

(** The floor of [m / 2^e] is [m / 2^e] itself exactly when [2^e]
    divides [m]. *)
Lemma floor_exact_iff m e :
  (m / JS.pow2 e * JS.pow2 e =? m) = (m mod JS.pow2 e =? 0).
Proof.
  pose proof (pow2_pos e) as Hp.
  pose proof (Z.div_mod m (JS.pow2 e) ltac:(lia)) as Hd.
  destruct (Z.eqb_spec (m mod JS.pow2 e) 0);
    destruct (Z.eqb_spec (m / JS.pow2 e * JS.pow2 e) m);
    try reflexivity; lia.
Qed.

Lemma reduce_power_of_two (k : N) :
  forall p p' : positive,
    Z.pos p = Z.pos p' * 2 ^ Z.of_N k -> JS.reduce p k = (p', 0%N).
Proof.
  induction k as [|k IH] using N.peano_ind; intros p p' H.
  - cbn in H. assert (p = p') by lia. subst. destruct p'; reflexivity.
  - rewrite N2Z.inj_succ, Z.pow_succ_r in H by lia.
    destruct p as [p|p|]; try lia.
    destruct (N.succ k) as [|s] eqn:Hs; [lia|].
    cbn [JS.reduce]. rewrite <- Hs, N.pred_succ.
    apply IH. lia.
Qed.

Lemma dyadic_power_of_two (z : Z) (k : N) :
  0 < z -> JS.dyadic (z * 2 ^ Z.of_N k) k = JS.Fin z 0.
Proof.
  intros Hz.
  assert (0 < 2 ^ Z.of_N k) by (apply Z.pow_pos_nonneg; lia).
  destruct z as [|p'|]; try lia.
  destruct (Z.pos p' * 2 ^ Z.of_N k) as [|p|] eqn:E; try lia.
  unfold JS.dyadic. rewrite (reduce_power_of_two k p p') by lia. reflexivity.
Qed.

Lemma round_half_even_1 n : JS.round_half_even n 1 = n.
Proof.
  unfold JS.round_half_even. rewrite Z.mod_1_r, Z.div_1_r. reflexivity.
Qed.

Lemma round_half_even_ge n d : 0 < d -> n / d <= JS.round_half_even n d.
Proof.
  intros. unfold JS.round_half_even.
  destruct (2 * (n mod d) ?= d); [destruct (Z.even (n / d))| |]; lia.
Qed.

Lemma ilog2_ratio_1 z : 0 < z -> JS.ilog2_ratio z 1 = Z.log2 z.
Proof.
  intros Hz. unfold JS.ilog2_ratio.
  change (Z.log2 1) with 0. rewrite Z.sub_0_r.
  pose proof (Z.log2_nonneg z).
  destruct (Z.leb_spec 0 (Z.log2 z)); [|lia].
  pose proof (Z.log2_spec z Hz).
  destruct (Z.ltb_spec z (1 * 2 ^ Z.log2 z)); lia.
Qed.

(** Integers below [2^53] are binary64 values: rounding keeps them. *)
Lemma round_to_double_exact z :
  0 < z < 2 ^ 53 -> JS.round_to_double z 1 = JS.Fin z 0.
Proof.
  intros [Hz Hlt]. unfold JS.round_to_double.
  destruct (Z.eqb_spec z 0); [lia|].
  rewrite ilog2_ratio_1 by lia.
  assert (Z.log2 z < 53) by (apply Z.log2_lt_pow2; lia).
  pose proof (Z.log2_nonneg z).
  cbv zeta.
  destruct (Z.leb_spec 0 (Z.max (Z.log2 z - 52) (-1074))).
  - assert (Z.max (Z.log2 z - 52) (-1074) = 0) as -> by lia.
    rewrite Z.pow_0_r, Z.mul_1_r, Z.mul_1_r, round_half_even_1.
    destruct (Z.leb_spec (2 ^ 1024) z); [|reflexivity].
    assert (2 ^ 53 < 2 ^ 1024) by (apply Z.pow_lt_mono_r; lia). lia.
  - rewrite round_half_even_1.
    rewrite <- (Z2N.id (- Z.max (Z.log2 z - 52) (-1074))) at 1 by lia.
    apply dyadic_power_of_two. lia.
Qed.

(** From [2^53] on, rounding stays at or above [2^53]. *)
Lemma round_to_double_large z :
  2 ^ 53 <= z ->
  JS.round_to_double z 1 = JS.Infinity false \/
  exists v, JS.round_to_double z 1 = JS.Fin v 0 /\ 2 ^ 53 <= v.
Proof.
  intros Hz.
  assert (0 < 2 ^ 53) by (apply Z.pow_pos_nonneg; lia).
  unfold JS.round_to_double.
  destruct (Z.eqb_spec z 0); [lia|].
  rewrite ilog2_ratio_1 by lia.
  assert (53 <= Z.log2 z) by (apply Z.log2_le_pow2; lia).
  cbv zeta.
  set (q := Z.max (Z.log2 z - 52) (-1074)).
  assert (Hq : q = Z.log2 z - 52) by lia.
  destruct (Z.leb_spec 0 q); [|lia].
  rewrite Z.mul_1_l.
  destruct (Z.leb_spec (2 ^ 1024) (JS.round_half_even z (2 ^ q) * 2 ^ q));
    [left; reflexivity|right].
  eexists; split; [reflexivity|].
  assert (0 < 2 ^ q) by (apply Z.pow_pos_nonneg; lia).
  pose proof (round_half_even_ge z (2 ^ q) ltac:(lia)).
  assert (2 ^ 52 <= z / 2 ^ q).
  { apply Z.div_le_lower_bound; [lia|].
    rewrite Z.mul_comm, <- Z.pow_add_r by lia.
    replace (52 + q) with (Z.log2 z) by lia.
    apply Z.log2_spec. lia. }
  assert (2 ^ 52 * 2 <= JS.round_half_even z (2 ^ q) * 2 ^ q).
  { apply Z.mul_le_mono_nonneg; try lia.
    change 2 with (2 ^ 1) at 1. apply Z.pow_le_mono_r; lia. }
  change (2 ^ 53) with (2 ^ 52 * 2). lia.
Qed.

(* ================================================================== *)
(** * Reading digits *)
(* ================================================================== *)

Lemma strict_equals_string_spec v s :
  reflect (v = JS.Str s) (JS.strict_equals_string v s).
Proof.
  destruct v; cbn; try (constructor; discriminate).
  destruct (String.eqb_spec s0 s); constructor; congruence.
Qed.

Lemma digit_in_bounds radix c d :
  JS.digit_in radix c = Some d -> 0 <= d < radix.
Proof.
  unfold JS.digit_in, JS.digit_of.
  repeat match goal with
         | |- context [if ?b then _ else _] => destruct b eqn:?
         end; intros [= <-]; lia.
Qed.

Lemma scan_digits_nonneg radix s :
  forall acc count z n rest,
    0 <= acc -> 0 <= count ->
    JS.scan_digits radix s acc count = (z, n, rest) ->
    0 <= z /\ count <= n.
Proof.
  induction s as [|c s IH]; intros acc count z n rest Ha Hc H; cbn in H.
  - injection H as <- <- <-. lia.
  - destruct (JS.digit_in radix c) as [d|] eqn:Hd.
    + apply digit_in_bounds in Hd.
      assert (H0 : 0 <= radix * acc + d) by nia.
      assert (H1 : 0 <= count + 1) by lia.
      destruct (IH _ _ _ _ _ H0 H1 H). lia.
    + injection H as <- <- <-. lia.
Qed.

Lemma parseInt_string_10 text :
  JS.parseInt_string text 10 =
  match base10_integer text with
  | None => JS.NaN
  | Some (negative, z) =>
      if z =? 0 then (if negative then JS.NegZero else JS.Fin 0 0)
      else
        let x := JS.round_to_double z 1 in
        if negative then JS.neg x else x
  end.
Proof.
  unfold JS.parseInt_string, base10_integer.
  destruct (JS.scan_sign (JS.skip_white_space text)) as [negative s].
  change ((10 =? 0) || ((2 <=? 10) && (10 <=? 36))) with true.
  change ((10 =? 0) || (10 =? 16)) with false.
  cbv iota beta.
  destruct (JS.scan_digits 10 s 0 0) as [[z n] rest].
  destruct (n =? 0); reflexivity.
Qed.

Lemma base10_integer_nonneg text negative z :
  base10_integer text = Some (negative, z) -> 0 <= z.
Proof.
  unfold base10_integer.
  destruct (JS.scan_sign (JS.skip_white_space text)) as [neg' s].
  destruct (JS.scan_digits 10 s 0 0) as [[z' n] rest] eqn:E.
  apply scan_digits_nonneg in E; try lia.
  destruct (n =? 0); intros [= <- <-]. lia.
Qed.


Lemma scan_digits_of_uint_acc d :
  forall acc count,
    JS.scan_digits 10 (NilEmpty.string_of_uint d) (Z.pos acc) count
    = (Z.pos (Pos.of_uint_acc d acc),
       count + Z.of_nat (Decimal.nb_digits d), "").
Proof.
  induction d; intros acc count;
    cbn [NilEmpty.string_of_uint Decimal.nb_digits Pos.of_uint_acc];
    try (rewrite Z.add_0_r; reflexivity);
    cbn [JS.scan_digits];
    match goal with
    | |- context [JS.digit_in 10 ?c] =>
        let r := eval vm_compute in (JS.digit_in 10 c) in
        change (JS.digit_in 10 c) with r
    end; cbv iota beta;
    match goal with
    | |- JS.scan_digits 10 _ ?a _ = (Z.pos (Pos.of_uint_acc _ ?b), _, _) =>
        replace a with (Z.pos b) by lia
    end; rewrite IHd; f_equal; f_equal; lia.
Qed.

Lemma scan_digits_of_uint d :
  forall count,
    JS.scan_digits 10 (NilEmpty.string_of_uint d) 0 count
    = (Z.of_N (Pos.of_uint d),
       count + Z.of_nat (Decimal.nb_digits d), "").
Proof.
  induction d; intros count;
    cbn [NilEmpty.string_of_uint Decimal.nb_digits Pos.of_uint];
    try (rewrite Z.add_0_r; reflexivity);
    cbn [JS.scan_digits];
    match goal with
    | |- context [JS.digit_in 10 ?c] =>
        let r := eval vm_compute in (JS.digit_in 10 c) in
        change (JS.digit_in 10 c) with r
    end; cbv iota beta;
    [ change (10 * 0 + 0) with 0; rewrite IHd; f_equal; f_equal; lia
    | match goal with
      | |- JS.scan_digits 10 _ ?a _ = (Z.of_N (N.pos (Pos.of_uint_acc _ ?b)), _, _) =>
          change a with (Z.pos b)
      end; rewrite scan_digits_of_uint_acc; f_equal; f_equal; lia .. ].
Qed.

Lemma to_uint_nonnil n : N.to_uint n <> Decimal.Nil.
Proof.
  destruct n; cbn; [discriminate | apply Unsigned.to_uint_nonnil].
Qed.

Lemma decimal_digits_scan z :
  0 <= z ->
  JS.scan_sign (JS.skip_white_space (JS.decimal_digits z))
  = (false, JS.decimal_digits z) /\
  exists n, 0 < n /\ JS.scan_digits 10 (JS.decimal_digits z) 0 0 = (z, n, "").
Proof.
  intros Hz. unfold JS.decimal_digits.
  pose proof (to_uint_nonnil (Z.to_N z)) as Hnil.
  pose proof (DecimalN.Unsigned.of_to (Z.to_N z)) as Hof.
  unfold N.of_uint in Hof.
  assert (Hs : NilZero.string_of_uint (N.to_uint (Z.to_N z))
               = NilEmpty.string_of_uint (N.to_uint (Z.to_N z))).
  { destruct (N.to_uint (Z.to_N z)); [congruence | reflexivity ..]. }
  rewrite Hs. split.
  - destruct (N.to_uint (Z.to_N z)); [congruence | reflexivity ..].
  - rewrite scan_digits_of_uint, Hof, Z2N.id by lia.
    eexists; split; [|reflexivity].
    destruct (N.to_uint (Z.to_N z)); [congruence | cbn [Decimal.nb_digits]; lia ..].
Qed.

Lemma base10_integer_decimal_text z :
  base10_integer (decimal_text z) = Some (z <? 0, Z.abs z).
Proof.
  unfold decimal_text, base10_integer. destruct (Z.ltb_spec z 0).
  - destruct (decimal_digits_scan (- z)) as [_ [n [Hn Hscan]]]; [lia|].
    change (JS.skip_white_space ("-" ++ JS.decimal_digits (- z)))
      with ("-" ++ JS.decimal_digits (- z)).
    change (JS.scan_sign ("-" ++ JS.decimal_digits (- z)))
      with (true, JS.decimal_digits (- z)).
    cbv iota beta. rewrite Hscan.
    destruct (Z.eqb_spec n 0); [lia|]. f_equal. f_equal. lia.
  - destruct (decimal_digits_scan z) as [Hsign [n [Hn Hscan]]]; [lia|].
    rewrite Hsign, Hscan.
    destruct (Z.eqb_spec n 0); [lia|]. f_equal. f_equal. lia.
Qed.

(* ================================================================== *)
(** * The [Int] scalar *)
(* ================================================================== *)

Lemma Number_Num x : JS.Number (JS.Num x) = Return x.
Proof. reflexivity. Qed.

Lemma Number_Str s : JS.Number (JS.Str s) = Return (JS.StringToNumber s).
Proof. reflexivity. Qed.

Lemma String_Str s : JS.String (JS.Str s) = Return s.
Proof. reflexivity. Qed.

(** The source's checks, done with the runtime's comparisons and
    [Math.floor], decide the mathematical conditions of [Int_coerce]. *)
Lemma Int_serialize_unfold v : serialize GraphQLInt v = Int_coerce v.
Proof.
  unfold Int_coerce. cbn [serialize GraphQLInt].
  destruct (JS.strict_equals_string v ""); [reflexivity|].
  destruct (JS.Number v) as [[ | [|] | | m e]|err]; try reflexivity.
  cbn [and_then].
  unfold GRAPHQL_MAX_INT, GRAPHQL_MIN_INT, outside_int32, is_integer, is_NaN.
  unfold JS.neqb at 1. rewrite eqb_Fin_refl, gtb_Fin_of_Z, ltb_Fin_of_Z.
  cbn [negb orb]. rewrite orb_comm.
  destruct ((m <? -2147483648 * JS.pow2 e) || (2147483647 * JS.pow2 e <? m));
    [reflexivity|].
  rewrite floor_Fin, neqb_of_Z_Fin, floor_exact_iff.
  destruct (m mod JS.pow2 e =? 0); reflexivity.
Qed.

Lemma Int_parseValue_serialize v :
  parseValue GraphQLInt v = serialize GraphQLInt v.
Proof. reflexivity. Qed.

Lemma Int_serialize_int32 n :
  -2147483648 <= n <= 2147483647 ->
  serialize GraphQLInt (JS.Num (JS.of_Z n)) = Return (JS.Num (JS.of_Z n)).
Proof.
  intros Hn. rewrite Int_serialize_unfold. unfold Int_coerce.
  cbn [JS.strict_equals_string]. change (JS.Number (JS.Num (JS.of_Z n)))
    with (Return (JS.of_Z n)). unfold JS.of_Z.
  cbn [and_then is_NaN orb outside_int32 is_integer].
  rewrite pow2_0, !Z.mul_1_r.
  destruct (Z.ltb_spec n (-2147483648)); [lia|].
  destruct (Z.ltb_spec 2147483647 n); [lia|].
  cbn [orb]. rewrite Z.mod_1_r, Z.div_1_r. reflexivity.
Qed.

(** C1: for every integer [n] with [-2147483648 <= n <= 2147483647],
    [Int.serialize(n)] returns [n] and [Int.parseValue(n)] returns [n]. *)
Theorem Int_in_range_passes_through (n : Z) :
  -2147483648 <= n <= 2147483647 ->
  serialize GraphQLInt (JS.Num (JS.of_Z n)) = Return (JS.Num (JS.of_Z n)) /\
  parseValue GraphQLInt (JS.Num (JS.of_Z n)) = Return (JS.Num (JS.of_Z n)).
Proof.
  intros Hn. rewrite Int_parseValue_serialize.
  split; apply Int_serialize_int32; exact Hn.
Qed.

Lemma Int_in_range_passes_through_witness :
  -2147483648 <= -2147483648 <= 2147483647 /\
  serialize GraphQLInt (JS.Num (JS.of_Z (-2147483648)))
  = Return (JS.Num (JS.of_Z (-2147483648))) /\
  parseValue GraphQLInt (JS.Num (JS.of_Z (-2147483648)))
  = Return (JS.Num (JS.of_Z (-2147483648))).
Proof.
  split; [lia | apply (Int_in_range_passes_through (-2147483648)); lia].
Defined.

Lemma Int_parseLiteral_INT text :
  parseLiteral GraphQLInt (INT text) =
  match base10_integer text with
  | Some (negative, z) =>
      let i := if negative then - z else z in
      if int32 i then
        Return (JS.Num (if negative && (z =? 0) then JS.NegZero else JS.of_Z i))
      else NotApplicable
  | None => NotApplicable
  end.
Proof.
  cbn [parseLiteral GraphQLInt kind Kind.eqb node_value].
  unfold JS.parseInt. cbn [JS.ToString JS.PrimitiveToString and_then].
  rewrite parseInt_string_10.
  destruct (base10_integer text) as [[negative z]|] eqn:E; [|reflexivity].
  apply base10_integer_nonneg in E.
  unfold GRAPHQL_MAX_INT, GRAPHQL_MIN_INT, NotApplicable, int32. cbv zeta.
  destruct (Z.eqb_spec z 0) as [->|Hz].
  - destruct negative; reflexivity.
  - rewrite andb_false_r.
    destruct (Z.lt_ge_cases z (2 ^ 53)) as [Hlt|Hge].
    + rewrite round_to_double_exact by lia.
      assert (Hneg : JS.neg (JS.Fin z 0) = JS.of_Z (- z)).
      { cbn. destruct (Z.eqb_spec z 0); [lia|reflexivity]. }
      destruct negative.
      * rewrite Hneg, leb_of_Z, geb_of_Z.
        rewrite andb_comm. reflexivity.
      * change (JS.Fin z 0) with (JS.of_Z z).
        rewrite leb_of_Z, geb_of_Z. rewrite andb_comm. reflexivity.
    + assert (2147483647 < 2 ^ 53) by (change (2^53) with 9007199254740992; lia).
      assert (Hout : (if negative then - z else z) < -2147483648 \/
                     2147483647 < (if negative then - z else z))
        by (destruct negative; lia).
      assert ((-2147483648 <=? (if negative then - z else z)) &&
              ((if negative then - z else z) <=? 2147483647) = false) as ->.
      { destruct (Z.leb_spec (-2147483648) (if negative then - z else z));
        destruct (Z.leb_spec (if negative then - z else z) 2147483647);
        try reflexivity; lia. }
      destruct (round_to_double_large z Hge) as [->|[v [-> Hv]]].
      * destruct negative; reflexivity.
      * assert (Hneg : JS.neg (JS.Fin v 0) = JS.of_Z (- v)).
        { cbn. destruct (Z.eqb_spec v 0); [lia|reflexivity]. }
        destruct negative.
        -- rewrite Hneg, leb_of_Z, geb_of_Z.
           destruct (Z.leb_spec (-2147483648) (- v)); [lia|].
           rewrite andb_false_r. reflexivity.
        -- change (JS.Fin v 0) with (JS.of_Z v). rewrite leb_of_Z.
           destruct (Z.leb_spec v 2147483647); [lia|]. reflexivity.
Qed.

(** The failures of [Int] coercion, on any value. *)
Lemma Int_serialize_cases (v : JS.value) :
  (v = JS.Str "" ->
   serialize GraphQLInt v = Throw (TypeError
     "Int cannot represent non 32-bit signed integer value: (empty string)"))
  /\ (v <> JS.Str "" ->
      forall e, JS.Number v = Throw e -> serialize GraphQLInt v = Throw e)
  /\ (v <> JS.Str "" ->
      forall num, JS.Number v = Return num ->
      is_NaN num || outside_int32 num = true ->
      (forall text, JS.String v = Return text ->
         serialize GraphQLInt v = Throw (TypeError
           ("Int cannot represent non 32-bit signed integer value: " ++ text)))
      /\ (forall e, JS.String v = Throw e ->
            serialize GraphQLInt v = Throw e))
  /\ (v <> JS.Str "" ->
      forall num, JS.Number v = Return num ->
      is_NaN num || outside_int32 num = false ->
      is_integer num = false ->
      (forall text, JS.String v = Return text ->
         serialize GraphQLInt v = Throw (TypeError
           ("Int cannot represent non-integer value: " ++ text)))
      /\ (forall e, JS.String v = Throw e ->
            serialize GraphQLInt v = Throw e))
  /\ ((exists e, serialize GraphQLInt v = Throw e) <->
      v = JS.Str "" \/
      (exists e, JS.Number v = Throw e) \/
      exists num, JS.Number v = Return num /\
                  (is_NaN num || outside_int32 num = true \/
                   is_integer num = false)).
Proof.
  rewrite Int_serialize_unfold. unfold Int_coerce.
  destruct (strict_equals_string_spec v "") as [Hv|Hv].
  { repeat split; try congruence; eauto. }
  destruct (JS.Number v) as [num|err]; cbn [and_then].
  2:{ repeat split; try congruence; eauto. }
  destruct (is_NaN num || outside_int32 num) eqn:Ho.
  { split; [congruence|]. split; [discriminate|].
    split; [|split; [congruence|]].
    - intros _ num' [= <-] _.
      split; intros x Hx; rewrite Hx; reflexivity.
    - split; [|destruct (JS.String v); cbn [and_then]; eauto].
      intros _. right. right. exists num. auto. }
  destruct (is_integer num) eqn:Hi.
  { split; [congruence|]. split; [discriminate|].
    split; [intros _ num' [= <-]; congruence|].
    split; [intros _ num' [= <-]; congruence|].
    split.
    - intros [e He]. discriminate.
    - intros [H|[[e H]|[num' [[= <-] [H|H]]]]]; congruence. }
  split; [congruence|]. split; [discriminate|].
  split; [intros _ num' [= <-]; congruence|].
  split.
  - intros _ num' [= <-] _ _.
    split; intros x Hx; rewrite Hx; reflexivity.
  - split; [|destruct (JS.String v); cbn [and_then]; eauto].
    intros _. right. right. exists num. auto.
Qed.

(** C2, amended: [Int.serialize] and [Int.parseValue] fail exactly on the
    empty string (with its own message), on an input whose numeric
    conversion itself throws (a symbol, an object with no primitive
    conversion: the runtime's [TypeError] is what the caller gets), on an
    input whose numeric conversion is NaN or lies outside
    [-2147483648, 2147483647], and on an in-range input whose conversion
    is fractional; the messages of the last two are those of section 4
    preceded by the scalar's name: "Int cannot represent non 32-bit
    signed integer value: " and "Int cannot represent non-integer
    value: ", each followed by the string conversion of the input, and
    where that string conversion throws, its [TypeError] is what the
    caller gets.  In particular the coercion of 2147483648, -2147483649,
    1.5, -1.5 and the empty string fails. *)
Theorem Int_coercion_failures :
  (forall v : JS.value,
     (v = JS.Str "" ->
      serialize GraphQLInt v = Throw (TypeError
        "Int cannot represent non 32-bit signed integer value: (empty string)"))
     /\ (v <> JS.Str "" ->
         forall e, JS.Number v = Throw e -> serialize GraphQLInt v = Throw e)
     /\ (v <> JS.Str "" ->
         forall num, JS.Number v = Return num ->
         is_NaN num || outside_int32 num = true ->
         (forall text, JS.String v = Return text ->
            serialize GraphQLInt v = Throw (TypeError
              ("Int cannot represent non 32-bit signed integer value: " ++
               text)))
         /\ (forall e, JS.String v = Throw e ->
               serialize GraphQLInt v = Throw e))
     /\ (v <> JS.Str "" ->
         forall num, JS.Number v = Return num ->
         is_NaN num || outside_int32 num = false ->
         is_integer num = false ->
         (forall text, JS.String v = Return text ->
            serialize GraphQLInt v = Throw (TypeError
              ("Int cannot represent non-integer value: " ++ text)))
         /\ (forall e, JS.String v = Throw e ->
               serialize GraphQLInt v = Throw e))
     /\ ((exists e, serialize GraphQLInt v = Throw e) <->
         v = JS.Str "" \/
         (exists e, JS.Number v = Throw e) \/
         exists num, JS.Number v = Return num /\
                     (is_NaN num || outside_int32 num = true \/
                      is_integer num = false))
     /\ parseValue GraphQLInt v = serialize GraphQLInt v)
  /\ serialize GraphQLInt (JS.Num (JS.of_Z 2147483648)) = Throw (TypeError
       "Int cannot represent non 32-bit signed integer value: 2147483648")
  /\ serialize GraphQLInt (JS.Num (JS.of_Z (-2147483649))) = Throw (TypeError
       "Int cannot represent non 32-bit signed integer value: -2147483649")
  /\ serialize GraphQLInt (JS.Num (JS.Fin 3 1)) = Throw (TypeError
       "Int cannot represent non-integer value: 1.5")
  /\ serialize GraphQLInt (JS.Num (JS.Fin (-3) 1)) = Throw (TypeError
       "Int cannot represent non-integer value: -1.5")
  /\ serialize GraphQLInt (JS.Str "") = Throw (TypeError
       "Int cannot represent non 32-bit signed integer value: (empty string)")
  /\ serialize GraphQLInt null_prototype_object = Throw ConversionError
  /\ serialize GraphQLInt (JS.Sym None) = Throw ConversionError.
Proof.
  split; [|repeat split; vm_compute; reflexivity].
  intros v. destruct (Int_serialize_cases v) as (H1 & H2 & H3 & H4 & H5).
  split; [exact H1|]. split; [exact H2|]. split; [exact H3|].
  split; [exact H4|]. split; [exact H5|reflexivity].
Qed.

Lemma Int_coercion_failures_witness :
  serialize GraphQLInt (JS.Str "abc") = Throw (TypeError
    ("Int cannot represent non 32-bit signed integer value: " ++ "abc")).
Proof.
  refine (proj1 (proj1 (proj2 (proj2 (proj1 Int_coercion_failures
            (JS.Str "abc")))) _ JS.NaN _ _) "abc" _).
  - discriminate.
  - vm_compute. reflexivity.
  - reflexivity.
  - reflexivity.
Defined.

(** C2 as stated fails: the message thrown for 2147483648 is not the
    text "cannot represent non 32-bit signed integer value: 2147483648"
    of section 4, the source puts "Int " in front of it; and the
    coercion also fails outside the three listed cases, on an object
    with no primitive conversion. *)
Lemma Int_message_differs_from_spec_text :
  serialize GraphQLInt (JS.Num (JS.of_Z 2147483648))
  <> Throw (TypeError
       "cannot represent non 32-bit signed integer value: 2147483648")
  /\ serialize GraphQLInt null_prototype_object = Throw ConversionError.
Proof. split; [vm_compute; discriminate | reflexivity]. Qed.

(** C3: [Int.parseLiteral] accepts INT nodes only; it reads the raw text
    as a base-10 integer and returns it when it lies in
    [-2147483648, 2147483647]; an out-of-range INT literal and a node of
    any other kind yield NotApplicable.  On the decimal text of an
    integer [z] the result is [z] exactly when [z] is in range. *)
Theorem Int_parseLiteral_int32_literals :
  (forall ast : ValueNode,
     parseLiteral GraphQLInt ast =
     match ast with
     | INT text =>
         match base10_integer text with
         | Some (negative, z) =>
             let i := if negative then - z else z in
             if int32 i then
               Return (JS.Num (if negative && (z =? 0) then JS.NegZero
                               else JS.of_Z i))
             else NotApplicable
         | None => NotApplicable
         end
     | _ => NotApplicable
     end)
  /\ (forall z : Z,
        parseLiteral GraphQLInt (INT (decimal_text z)) =
        if int32 z then Return (JS.Num (JS.of_Z z)) else NotApplicable)
  /\ parseLiteral GraphQLInt (INT "123") = Return (JS.Num (JS.of_Z 123))
  /\ parseLiteral GraphQLInt (INT "99999999999") = NotApplicable
  /\ parseLiteral GraphQLInt (STRING "1") = NotApplicable.
Proof.
  split; [|split; [|repeat split; vm_compute; reflexivity]].
  - intros [text|text|text|b|tag]; try reflexivity.
    apply Int_parseLiteral_INT.
  - intros z. rewrite Int_parseLiteral_INT, base10_integer_decimal_text.
    cbv zeta.
    assert ((if z <? 0 then - Z.abs z else Z.abs z) = z) as ->
      by (destruct (Z.ltb_spec z 0); lia).
    assert ((z <? 0) && (Z.abs z =? 0) = false) as ->.
    { destruct (Z.ltb_spec z 0); [|reflexivity].
      destruct (Z.eqb_spec (Z.abs z) 0); [lia|reflexivity]. }
    reflexivity.
Qed.

(* ================================================================== *)
(** * The [Float] scalar *)
(* ================================================================== *)

Lemma Float_serialize_cases (v : JS.value) :
  (v = JS.Str "" ->
   serialize GraphQLFloat v = Throw (TypeError
     "Float cannot represent non numeric value: (empty string)"))
  /\ (v <> JS.Str "" ->
      forall e, JS.Number v = Throw e -> serialize GraphQLFloat v = Throw e)
  /\ (v <> JS.Str "" ->
      JS.Number v = Return JS.NaN ->
      (forall text, JS.String v = Return text ->
         serialize GraphQLFloat v = Throw (TypeError
           ("Float cannot represent non numeric value: " ++ text)))
      /\ (forall e, JS.String v = Throw e ->
            serialize GraphQLFloat v = Throw e))
  /\ (v <> JS.Str "" ->
      forall num, JS.Number v = Return num -> is_NaN num = false ->
      serialize GraphQLFloat v = Return (JS.Num num))
  /\ ((exists e, serialize GraphQLFloat v = Throw e) <->
      v = JS.Str "" \/
      (exists e, JS.Number v = Throw e) \/
      JS.Number v = Return JS.NaN).
Proof.
  cbn [serialize GraphQLFloat].
  destruct (strict_equals_string_spec v "") as [Hv|Hv].
  { repeat split; try congruence; eauto. }
  destruct (JS.Number v) as [num|err]; cbn [and_then].
  2:{ repeat split; try congruence; eauto. }
  rewrite eqb_refl_not_NaN.
  destruct num as [ | b | | m e]; cbn [is_NaN negb].
  - split; [congruence|]. split; [intros _ x Hx; discriminate Hx|].
    split; [|split; [intros _ num [= <-] Hn; discriminate Hn|]].
    + intros _ _. split; intros x Hx; rewrite Hx; reflexivity.
    + split; [auto|]. intros _.
      destruct (JS.String v); cbn [and_then]; eauto.
  - split; [congruence|]. split; [intros _ x Hx; discriminate Hx|].
    split; [intros _ Hx; discriminate Hx|].
    split; [intros _ num [= <-] _; reflexivity|].
    split; [intros [x Hx]; discriminate|].
    intros [H|[[x H]|H]]; congruence.
  - split; [congruence|]. split; [intros _ x Hx; discriminate Hx|].
    split; [intros _ Hx; discriminate Hx|].
    split; [intros _ num [= <-] _; reflexivity|].
    split; [intros [x Hx]; discriminate|].
    intros [H|[[x H]|H]]; congruence.
  - split; [congruence|]. split; [intros _ x Hx; discriminate Hx|].
    split; [intros _ Hx; discriminate Hx|].
    split; [intros _ num [= <-] _; reflexivity|].
    split; [intros [x Hx]; discriminate|].
    intros [H|[[x H]|H]]; congruence.
Qed.

(** C4, amended: [Float.serialize] and [Float.parseValue] reject the
    empty string with its own message; where the numeric conversion of
    the input itself throws (a symbol, an object with no primitive
    conversion) the runtime's [TypeError] is what the caller gets; they
    fail with "Float cannot represent non numeric value: " followed by
    the string conversion of the input exactly when the numeric
    conversion of the input is NaN (where that string conversion throws,
    its [TypeError] is what the caller gets); and otherwise they return
    the converted number, whatever its size or fraction.
    [Float.parseLiteral] reads the raw text of FLOAT and INT nodes as a
    floating-point number and yields NotApplicable for any other kind. *)
Theorem Float_coercion :
  (forall v : JS.value,
     (v = JS.Str "" ->
      serialize GraphQLFloat v = Throw (TypeError
        "Float cannot represent non numeric value: (empty string)"))
     /\ (v <> JS.Str "" ->
         forall e, JS.Number v = Throw e ->
                   serialize GraphQLFloat v = Throw e)
     /\ (v <> JS.Str "" ->
         JS.Number v = Return JS.NaN ->
         (forall text, JS.String v = Return text ->
            serialize GraphQLFloat v = Throw (TypeError
              ("Float cannot represent non numeric value: " ++ text)))
         /\ (forall e, JS.String v = Throw e ->
               serialize GraphQLFloat v = Throw e))
     /\ (v <> JS.Str "" ->
         forall num, JS.Number v = Return num -> is_NaN num = false ->
         serialize GraphQLFloat v = Return (JS.Num num))
     /\ ((exists e, serialize GraphQLFloat v = Throw e) <->
         v = JS.Str "" \/
         (exists e, JS.Number v = Throw e) \/
         JS.Number v = Return JS.NaN)
     /\ parseValue GraphQLFloat v = serialize GraphQLFloat v)
  /\ (forall ast : ValueNode,
        parseLiteral GraphQLFloat ast =
        match ast with
        | FLOAT text | INT text =>
            Return (JS.Num (JS.parseFloat_string text))
        | _ => NotApplicable
        end)
  /\ serialize GraphQLFloat (JS.Num JS.NaN) = Throw (TypeError
       "Float cannot represent non numeric value: NaN")
  /\ serialize GraphQLFloat (JS.Str "3.14")
     = Return (JS.Num (JS.of_decimal false 314 (-2)))
  /\ JS.of_decimal false 314 (-2) = JS.Fin 7070651414971679 51
  /\ parseLiteral GraphQLFloat (FLOAT "2.5") = Return (JS.Num (JS.Fin 5 1))
  /\ parseLiteral GraphQLFloat (INT "4") = Return (JS.Num (JS.of_Z 4))
  /\ serialize GraphQLFloat (JS.Num (JS.Infinity false))
     = Return (JS.Num (JS.Infinity false))
  /\ serialize GraphQLFloat null_prototype_object = Throw ConversionError
  /\ serialize GraphQLFloat (JS.Sym None) = Throw ConversionError.
Proof.
  split; [|split; [|repeat split; vm_compute; reflexivity]].
  - intros v. destruct (Float_serialize_cases v) as (H1 & H2 & H3 & H4 & H5).
    split; [exact H1|]. split; [exact H2|]. split; [exact H3|].
    split; [exact H4|]. split; [exact H5|reflexivity].
  - intros [text|text|text|b|tag]; reflexivity.
Qed.

Lemma Float_coercion_witness :
  serialize GraphQLFloat (JS.Num (JS.Fin (-3) 1))
  = Return (JS.Num (JS.Fin (-3) 1)).
Proof.
  refine (proj1 (proj2 (proj2 (proj2 (proj1 Float_coercion
            (JS.Num (JS.Fin (-3) 1)))))) _ (JS.Fin (-3) 1) _ _).
  - discriminate.
  - reflexivity.
  - reflexivity.
Defined.

(** C4 as stated fails: the message thrown for NaN is not the text
    "cannot represent non numeric value: NaN", the source puts "Float "
    in front of it; and a non-empty-string input whose conversion is not
    NaN need not be returned: on an object with no primitive conversion
    the coercion throws. *)
Lemma Float_message_differs_from_spec_text :
  serialize GraphQLFloat (JS.Num JS.NaN)
  <> Throw (TypeError "cannot represent non numeric value: NaN")
  /\ serialize GraphQLFloat null_prototype_object = Throw ConversionError.
Proof. split; [vm_compute; discriminate | reflexivity]. Qed.

(* ================================================================== *)
(** * The [String] scalar *)
(* ================================================================== *)

(** C5, amended: [String.serialize] and [String.parseValue] fail with
    "String cannot represent an array value: [" followed by the string
    conversion of the input and "]" for every array, and otherwise
    return the string conversion of the input; where that string
    conversion itself throws (an object with no primitive conversion, an
    array holding one or holding a symbol) the runtime's [TypeError] is
    what the caller gets.  [String.parseLiteral] returns the text of a
    STRING node and NotApplicable for any other kind. *)
Theorem String_coercion :
  (forall (items : list JS.value) (text : string),
     JS.String (JS.Arr items) = Return text ->
     serialize GraphQLString (JS.Arr items) = Throw (TypeError
       ("String cannot represent an array value: [" ++ text ++ "]")))
  /\ (forall (v : JS.value) (text : string),
        JS.Array.isArray v = false ->
        JS.String v = Return text ->
        serialize GraphQLString v = Return (JS.Str text))
  /\ (forall (v : JS.value) (e : exception),
        JS.String v = Throw e -> serialize GraphQLString v = Throw e)
  /\ (forall v : JS.value,
        (exists e, serialize GraphQLString v = Throw e) <->
        JS.Array.isArray v = true \/ exists e, JS.String v = Throw e)
  /\ (forall v : JS.value,
        parseValue GraphQLString v = serialize GraphQLString v)
  /\ (forall ast : ValueNode,
        parseLiteral GraphQLString ast =
        match ast with
        | STRING text => Return (JS.Str text)
        | _ => NotApplicable
        end)
  /\ serialize GraphQLString
       (JS.Arr [JS.Num (JS.of_Z 1); JS.Num (JS.of_Z 2)])
     = Throw (TypeError "String cannot represent an array value: [1,2]")
  /\ serialize GraphQLString (JS.Num (JS.of_Z 42)) = Return (JS.Str "42")
  /\ parseLiteral GraphQLString (STRING "x") = Return (JS.Str "x")
  /\ parseLiteral GraphQLString (INT "1") = NotApplicable
  /\ serialize GraphQLString null_prototype_object = Throw ConversionError
  /\ serialize GraphQLString (JS.Arr [JS.Sym None]) = Throw ConversionError.
Proof.
  split; [intros items text H; cbn [serialize GraphQLString JS.Array.isArray];
          rewrite H; reflexivity|].
  split; [intros v text Hv H; cbn [serialize GraphQLString];
          rewrite Hv, H; reflexivity|].
  split; [intros v e H; cbn [serialize GraphQLString]; rewrite H;
          destruct (JS.Array.isArray v); reflexivity|].
  split.
  { intros v. cbn [serialize GraphQLString].
    destruct (JS.Array.isArray v), (JS.String v) as [text|err];
      cbn [and_then]; split;
      try (intros _; eexists; reflexivity);
      try (intros _; auto; fail);
      try (intros _; right; eexists; reflexivity);
      try (intros [x Hx]; discriminate Hx);
      intros [H|[x H]]; discriminate H. }
  split; [reflexivity|].
  split; [intros [text|text|text|b|tag]; reflexivity|].
  repeat split; vm_compute; reflexivity.
Qed.

Lemma String_coercion_witness :
  serialize GraphQLString (JS.Bool true) = Return (JS.Str "true").
Proof.
  apply (proj1 (proj2 String_coercion) (JS.Bool true) "true");
    reflexivity.
Defined.

(** C5 as stated fails: the message thrown for the array [1,2] is not
    the text "cannot represent an array value: [1,2]", the source puts
    "String " in front of it; and an input that is not an array need not
    be returned as a string: on an object with no primitive conversion
    the coercion throws. *)
Lemma String_message_differs_from_spec_text :
  serialize GraphQLString (JS.Arr [JS.Num (JS.of_Z 1); JS.Num (JS.of_Z 2)])
  <> Throw (TypeError "cannot represent an array value: [1,2]")
  /\ serialize GraphQLString null_prototype_object = Throw ConversionError.
Proof. split; [vm_compute; discriminate | reflexivity]. Qed.

(* ================================================================== *)
(** * The [ID] scalar *)
(* ================================================================== *)

(** The string conversion of a primitive returns: symbols are
    described, the others converted. *)
Lemma String_of_primitive (v : JS.value) :
  JS.is_primitive v = true -> exists text, JS.String v = Return text.
Proof.
  destruct v; try discriminate; intros _; eexists; reflexivity.
Qed.

(** C6, amended: [ID.serialize] and [ID.parseValue] apply the string
    conversion to every input and add no check of their own: they return
    the string conversion of the input whenever that conversion returns,
    arrays (which [String] rejects) included, and so never fail on a
    primitive; they fail only where the string conversion itself throws,
    as on an object with no primitive conversion, with the runtime's
    [TypeError].  [ID.parseLiteral] returns the text of STRING and INT
    nodes unchanged, leading zeros included, and NotApplicable for any
    other kind. *)
Theorem ID_coercion_follows_String :
  (forall (v : JS.value) (text : string),
     JS.String v = Return text ->
     serialize GraphQLID v = Return (JS.Str text) /\
     parseValue GraphQLID v = Return (JS.Str text))
  /\ (forall (v : JS.value) (e : exception),
        JS.String v = Throw e ->
        serialize GraphQLID v = Throw e /\ parseValue GraphQLID v = Throw e)
  /\ (forall v : JS.value,
        JS.is_primitive v = true ->
        exists text, serialize GraphQLID v = Return (JS.Str text))
  /\ (forall (items : list JS.value) (text : string),
        JS.String (JS.Arr items) = Return text ->
        serialize GraphQLID (JS.Arr items) = Return (JS.Str text) /\
        exists e, serialize GraphQLString (JS.Arr items) = Throw e)
  /\ (forall ast : ValueNode,
        parseLiteral GraphQLID ast =
        match ast with
        | STRING text | INT text => Return (JS.Str text)
        | _ => NotApplicable
        end)
  /\ serialize GraphQLID (JS.Num (JS.of_Z 4)) = Return (JS.Str "4")
  /\ parseLiteral GraphQLID (STRING "007") = Return (JS.Str "007")
  /\ parseLiteral GraphQLID (INT "007") = Return (JS.Str "007")
  /\ serialize GraphQLID
       (JS.Arr [JS.Num (JS.of_Z 1); JS.Num (JS.of_Z 2)])
     = Return (JS.Str "1,2")
  /\ serialize GraphQLID null_prototype_object = Throw ConversionError.
Proof.
  split; [intros v text H; cbn [serialize parseValue GraphQLID];
          rewrite H; split; reflexivity|].
  split; [intros v e H; cbn [serialize parseValue GraphQLID];
          rewrite H; split; reflexivity|].
  split.
  { intros v Hv. destruct (String_of_primitive v Hv) as [text H].
    exists text. cbn [serialize GraphQLID]. rewrite H. reflexivity. }
  split.
  { intros items text H.
    cbn [serialize GraphQLID GraphQLString JS.Array.isArray].
    rewrite H. split; [reflexivity|eexists; reflexivity]. }
  split; [intros [text|text|text|b|tag]; reflexivity|].
  repeat split; vm_compute; reflexivity.
Qed.

Lemma ID_coercion_follows_String_witness :
  serialize GraphQLID (JS.Sym (Some "key")) = Return (JS.Str "Symbol(key)")
  /\ parseValue GraphQLID (JS.Sym (Some "key"))
     = Return (JS.Str "Symbol(key)").
Proof.
  apply (proj1 ID_coercion_follows_String (JS.Sym (Some "key")) "Symbol(key)").
  reflexivity.
Defined.

(** C6 as stated fails: [ID.serialize] and [ID.parseValue] throw on an
    object with no primitive conversion, such as [Object.create(null)]. *)
Lemma ID_serialize_fails_without_conversion :
  serialize GraphQLID null_prototype_object = Throw ConversionError /\
  parseValue GraphQLID null_prototype_object = Throw ConversionError /\
  forall r : JS.value, serialize GraphQLID null_prototype_object <> Return r.
Proof. repeat split. intros r H. discriminate H. Qed.

(* ================================================================== *)
(** * The registry *)
(* ================================================================== *)

Lemma isSpecifiedScalarType_names type :
  isSpecifiedScalarType type = true <->
  In (named_type_name type) ["String"; "Int"; "Float"; "Boolean"; "ID"].
Proof.
  unfold isSpecifiedScalarType, specifiedScalarTypes.
  cbn [existsb name GraphQLString GraphQLInt GraphQLFloat GraphQLBoolean
       GraphQLID In].
  repeat rewrite orb_true_iff. repeat rewrite String.eqb_eq.
  intuition (congruence || discriminate).
Qed.

(** C7: [specifiedScalarTypes] is the list String, Int, Float, Boolean,
    ID, each name once; [isSpecifiedScalarType] holds of a type exactly
    when an entry has its name: of the five built-in names, also on a
    distinct definition reusing one of them, and of no other name. *)
Theorem specified_scalar_types_registry :
  specifiedScalarTypes
  = [GraphQLString; GraphQLInt; GraphQLFloat; GraphQLBoolean; GraphQLID]
  /\ map name specifiedScalarTypes
     = ["String"; "Int"; "Float"; "Boolean"; "ID"]
  /\ NoDup (map name specifiedScalarTypes)
  /\ (forall type : GraphQLNamedType,
        isSpecifiedScalarType type = true <->
        exists t, In t specifiedScalarTypes /\ name t = named_type_name type)
  /\ (forall type : GraphQLNamedType,
        isSpecifiedScalarType type = true <->
        In (named_type_name type) ["String"; "Int"; "Float"; "Boolean"; "ID"])
  /\ custom_Int <> GraphQLInt
  /\ isSpecifiedScalarType (ScalarType custom_Int) = true
  /\ isSpecifiedScalarType (OtherNamedType "DateTime") = false.
Proof.
  split; [reflexivity|]. split; [reflexivity|].
  split.
  { cbn. repeat constructor; cbn; intuition discriminate. }
  split.
  { intros type. unfold isSpecifiedScalarType. rewrite existsb_exists.
    split; intros [t [Hin Heq]]; exists t; split; try assumption.
    - symmetry. apply String.eqb_eq. exact Heq.
    - apply String.eqb_eq. symmetry. exact Heq. }
  split; [apply isSpecifiedScalarType_names|].
  split.
  { intros H. apply (f_equal description) in H. discriminate H. }
  split; reflexivity.
Qed.

(* ================================================================== *)
(** * Idempotence of [serialize] *)
(* ================================================================== *)

Lemma Int_serialize_idempotent v r :
  serialize GraphQLInt v = Return r -> serialize GraphQLInt r = Return r.
Proof.
  rewrite Int_serialize_unfold. unfold Int_coerce.
  destruct (JS.strict_equals_string v ""); [discriminate|].
  destruct (JS.Number v) as [[ | b | | m e]|err]; cbn [and_then is_NaN orb];
    try (destruct (JS.String v); discriminate); try discriminate.
  - intros [= <-]. reflexivity.
  - destruct (outside_int32 (JS.Fin m e)) eqn:Ho;
      [destruct (JS.String v); discriminate|].
    destruct (is_integer (JS.Fin m e)) eqn:Hi;
      [|destruct (JS.String v); discriminate].
    intros [= <-]. apply Int_serialize_int32.
    cbn [outside_int32 is_integer] in Ho, Hi.
    pose proof (pow2_pos e) as Hp.
    apply orb_false_iff in Ho as [Hlo Hhi].
    apply Z.ltb_ge in Hlo, Hhi. apply Z.eqb_eq in Hi.
    pose proof (Z.div_mod m (JS.pow2 e) ltac:(lia)) as Hd.
    rewrite Hi, Z.add_0_r in Hd. nia.
Qed.

Lemma Float_serialize_idempotent v r :
  serialize GraphQLFloat v = Return r -> serialize GraphQLFloat r = Return r.
Proof.
  cbn [serialize GraphQLFloat].
  destruct (JS.strict_equals_string v ""); [discriminate|].
  destruct (JS.Number v) as [num|err]; cbn [and_then]; [|discriminate].
  destruct (JS.eqb num num) eqn:E; [|destruct (JS.String v); discriminate].
  intros [= <-]. cbn [JS.strict_equals_string].
  change (JS.Number (JS.Num num)) with (Return num). cbn [and_then].
  rewrite E. reflexivity.
Qed.

Lemma String_serialize_idempotent v r :
  serialize GraphQLString v = Return r -> serialize GraphQLString r = Return r.
Proof.
  cbn [serialize GraphQLString].
  destruct (JS.Array.isArray v), (JS.String v); try discriminate.
  intros [= <-]. reflexivity.
Qed.

Lemma Boolean_serialize_idempotent v r :
  serialize GraphQLBoolean v = Return r ->
  serialize GraphQLBoolean r = Return r.
Proof. cbn [serialize GraphQLBoolean]. intros [= <-]. reflexivity. Qed.

Lemma ID_serialize_idempotent v r :
  serialize GraphQLID v = Return r -> serialize GraphQLID r = Return r.
Proof.
  cbn [serialize GraphQLID]. destruct (JS.String v); [|discriminate].
  intros [= <-]. reflexivity.
Qed.

(** C8: for each of the five scalars, when [serialize(v)] returns [r],
    [serialize(r)] returns [r] again. *)
Theorem serialize_idempotent (t : GraphQLScalarType) :
  In t specifiedScalarTypes ->
  forall v r : JS.value,
    serialize t v = Return r -> serialize t r = Return r.
Proof.
  intros [<-|[<-|[<-|[<-|[<-|[]]]]]] v r.
  - apply String_serialize_idempotent.
  - apply Int_serialize_idempotent.
  - apply Float_serialize_idempotent.
  - apply Boolean_serialize_idempotent.
  - apply ID_serialize_idempotent.
Qed.

Lemma serialize_idempotent_witness :
  In GraphQLInt specifiedScalarTypes /\
  serialize GraphQLInt (JS.Str "12") = Return (JS.Num (JS.of_Z 12)) /\
  serialize GraphQLInt (JS.Num (JS.of_Z 12)) = Return (JS.Num (JS.of_Z 12)).
Proof.
  assert (Hin : In GraphQLInt specifiedScalarTypes)
    by (right; left; reflexivity).
  assert (Hv : serialize GraphQLInt (JS.Str "12")
               = Return (JS.Num (JS.of_Z 12)))
    by (vm_compute; reflexivity).
  split; [exact Hin|]. split; [exact Hv|].
  exact (serialize_idempotent GraphQLInt Hin (JS.Str "12") _ Hv).
Defined.

(* ================================================================== *)
(** * Output normalization *)
(* ================================================================== *)



(* ================================================================== *)
(** * Literal parsing never throws *)
(* ================================================================== *)

(** C10: for each of the five scalars and every literal node,
    [parseLiteral] returns (a value or the [undefined] of NotApplicable):
    it never throws. *)
Theorem parseLiteral_never_throws (t : GraphQLScalarType) :
  In t specifiedScalarTypes ->
  forall ast : ValueNode, exists v : JS.value, parseLiteral t ast = Return v.
Proof.
  intros [<-|[<-|[<-|[<-|[<-|[]]]]]] [text|text|text|b|tag];
    try (eexists; reflexivity).
  rewrite Int_parseLiteral_INT.
  destruct (base10_integer text) as [[negative z]|]; cbv zeta;
    [destruct (int32 (if negative then - z else z))|];
    eexists; reflexivity.
Qed.

Lemma parseLiteral_never_throws_witness :
  In GraphQLInt specifiedScalarTypes /\
  exists v : JS.value,
    parseLiteral GraphQLInt (INT "99999999999") = Return v.
Proof.
  assert (Hin : In GraphQLInt specifiedScalarTypes)
    by (right; left; reflexivity).
  split; [exact Hin|].
  exact (parseLiteral_never_throws GraphQLInt Hin (INT "99999999999")).
Defined.

(* ================================================================== *)
(** * Decimal texts through the numeric conversions *)
(* ================================================================== *)

Lemma nil_empty_digits_shape d :
  d <> Decimal.Nil ->
  JS.skip_white_space (NilEmpty.string_of_uint d) = NilEmpty.string_of_uint d /\
  NilEmpty.string_of_uint d <> "" /\
  JS.scan_sign (NilEmpty.string_of_uint d) = (false, NilEmpty.string_of_uint d) /\
  JS.scan_non_decimal (NilEmpty.string_of_uint d) = None /\
  JS.strip_prefix "Infinity" (NilEmpty.string_of_uint d) = None.
Proof.
  intros Hd.
  destruct d as [|d|d|d|d|d|d|d|d|d|d]; [congruence| ..];
    (split; [|split; [|split; [|split]]]);
    try reflexivity; try discriminate.
  destruct d; reflexivity.
Qed.

Lemma decimal_digits_shape z :
  0 <= z ->
  JS.skip_white_space (JS.decimal_digits z) = JS.decimal_digits z /\
  JS.decimal_digits z <> "" /\
  JS.scan_sign (JS.decimal_digits z) = (false, JS.decimal_digits z) /\
  JS.scan_non_decimal (JS.decimal_digits z) = None /\
  JS.scan_unsigned_decimal (JS.decimal_digits z)
  = Some (JS.MDecimal z 0, "").
Proof.
  intros Hz.
  destruct (decimal_digits_scan z Hz) as [_ [n [Hn Hscan]]].
  revert Hscan. unfold JS.decimal_digits.
  pose proof (to_uint_nonnil (Z.to_N z)) as Hnil.
  assert (Hs : NilZero.string_of_uint (N.to_uint (Z.to_N z))
               = NilEmpty.string_of_uint (N.to_uint (Z.to_N z))).
  { destruct (N.to_uint (Z.to_N z)); [congruence | reflexivity ..]. }
  rewrite Hs. intros Hscan.
  destruct (nil_empty_digits_shape _ Hnil) as (H1 & H2 & H3 & H4 & H5).
  repeat split; try assumption.
  unfold JS.scan_unsigned_decimal. rewrite H5, Hscan.
  destruct (Z.ltb_spec 0 n); [reflexivity|lia].
Qed.

Lemma of_decimal_integer negative z :
  JS.of_decimal negative z 0
  = if negative then JS.neg (JS.round_to_double z 1)
    else JS.round_to_double z 1.
Proof.
  unfold JS.of_decimal. cbn [Z.leb Z.compare].
  rewrite Z.pow_0_r, Z.mul_1_r. reflexivity.
Qed.

(** The decimal text of [z] is read by [StringToNumber] as [|z|] rounded
    to binary64, with the sign of [z]. *)
Lemma scan_decimal_text z :
  JS.skip_white_space (decimal_text z) = decimal_text z /\
  decimal_text z <> "" /\
  JS.scan_non_decimal (decimal_text z) = None /\
  JS.scan_decimal (decimal_text z)
  = Some ((if z <? 0 then JS.neg (JS.round_to_double (- z) 1)
           else JS.round_to_double z 1), "").
Proof.
  unfold decimal_text. destruct (Z.ltb_spec z 0).
  - destruct (decimal_digits_shape (- z)) as (H1 & H2 & H3 & H4 & H5); [lia|].
    repeat split; try reflexivity; try discriminate.
    unfold JS.scan_decimal.
    change (JS.scan_sign ("-" ++ JS.decimal_digits (- z)))
      with (true, JS.decimal_digits (- z)).
    cbv iota beta. rewrite H5, of_decimal_integer. reflexivity.
  - destruct (decimal_digits_shape z) as (H1 & H2 & H3 & H4 & H5); [lia|].
    repeat split; try assumption.
    unfold JS.scan_decimal. rewrite H3, H5, of_decimal_integer. reflexivity.
Qed.

Lemma StringToNumber_decimal_text z :
  JS.StringToNumber (decimal_text z)
  = if z <? 0 then JS.neg (JS.round_to_double (- z) 1)
    else JS.round_to_double z 1.
Proof.
  destruct (scan_decimal_text z) as (H1 & H2 & H3 & H4).
  unfold JS.StringToNumber. rewrite H1, H3, H4.
  destruct (decimal_text z); [congruence|reflexivity].
Qed.

Lemma parseFloat_string_decimal_text z :
  JS.parseFloat_string (decimal_text z)
  = if z <? 0 then JS.neg (JS.round_to_double (- z) 1)
    else JS.round_to_double z 1.
Proof.
  destruct (scan_decimal_text z) as (H1 & H2 & H3 & H4).
  unfold JS.parseFloat_string. rewrite H1, H4. reflexivity.
Qed.

Lemma neg_Fin_positive z : 0 < z -> JS.neg (JS.Fin z 0) = JS.Fin (- z) 0.
Proof.
  intros Hz. cbn. destruct (Z.eqb_spec z 0); [lia|reflexivity].
Qed.

(** Below [2^53] in magnitude the reading is exact. *)
Lemma signed_round_exact z :
  - 2 ^ 53 < z < 2 ^ 53 ->
  (if z <? 0 then JS.neg (JS.round_to_double (- z) 1)
   else JS.round_to_double z 1) = JS.of_Z z.
Proof.
  intros Hz. destruct (Z.ltb_spec z 0).
  - rewrite round_to_double_exact, neg_Fin_positive by lia.
    unfold JS.of_Z. f_equal. lia.
  - destruct (Z.eq_dec z 0) as [->|]; [reflexivity|].
    apply round_to_double_exact. lia.
Qed.

(** From [2^53] on in magnitude the reading is outside the 32-bit range. *)
Lemma signed_round_large z :
  z <= - 2 ^ 53 \/ 2 ^ 53 <= z ->
  is_NaN (if z <? 0 then JS.neg (JS.round_to_double (- z) 1)
          else JS.round_to_double z 1) = false /\
  outside_int32 (if z <? 0 then JS.neg (JS.round_to_double (- z) 1)
                 else JS.round_to_double z 1) = true.
Proof.
  intros Hz.
  assert (H53 : 2 ^ 53 = 9007199254740992) by reflexivity.
  destruct (Z.ltb_spec z 0).
  - destruct (round_to_double_large (- z)) as [->|[v [-> Hv]]]; [lia| |].
    + split; reflexivity.
    + rewrite neg_Fin_positive by lia. split; [reflexivity|].
      cbn [outside_int32]. rewrite pow2_0, !Z.mul_1_r.
      destruct (Z.ltb_spec (- v) (-2147483648)); [reflexivity|lia].
  - destruct (round_to_double_large z) as [->|[v [-> Hv]]]; [lia| |].
    + split; reflexivity.
    + split; [reflexivity|].
      cbn [outside_int32]. rewrite pow2_0, !Z.mul_1_r.
      destruct (Z.ltb_spec 2147483647 v) as [|Hle];
        [apply orb_true_r | lia].
Qed.

Lemma int32_below_2_53 z : int32 z = true -> - 2 ^ 53 < z < 2 ^ 53.
Proof.
  unfold int32. intros H. apply andb_true_iff in H as [H1 H2].
  apply Z.leb_le in H1, H2.
  change (2 ^ 53) with 9007199254740992. lia.
Qed.

Lemma strict_equals_decimal_text z :
  JS.strict_equals_string (JS.Str (decimal_text z)) "" = false.
Proof.
  destruct (scan_decimal_text z) as (_ & H2 & _).
  cbn. destruct (String.eqb_spec (decimal_text z) ""); congruence.
Qed.

Lemma Int_serialize_decimal_text z :
  serialize GraphQLInt (JS.Str (decimal_text z)) =
  if int32 z then Return (JS.Num (JS.of_Z z))
  else Throw (TypeError
         ("Int cannot represent non 32-bit signed integer value: " ++
          decimal_text z)).
Proof.
  rewrite Int_serialize_unfold. unfold Int_coerce.
  rewrite strict_equals_decimal_text, Number_Str, String_Str.
  cbn [and_then]. rewrite StringToNumber_decimal_text.
  destruct (Z.lt_ge_cases (Z.abs z) (2 ^ 53)) as [Hs|Hl].
  - rewrite signed_round_exact by lia. unfold JS.of_Z.
    cbn [is_NaN orb outside_int32 is_integer]. rewrite pow2_0, !Z.mul_1_r.
    rewrite Z.mod_1_r, Z.div_1_r. cbn [Z.eqb].
    unfold int32.
    destruct (Z.ltb_spec z (-2147483648)), (Z.ltb_spec 2147483647 z),
      (Z.leb_spec (-2147483648) z), (Z.leb_spec z 2147483647);
      try lia; reflexivity.
  - assert (Hout : int32 z = false).
    { destruct (int32 z) eqn:E; [|reflexivity].
      apply int32_below_2_53 in E. lia. }
    rewrite Hout.
    destruct (signed_round_large z) as [Hn Ho]; [lia|].
    rewrite Hn, Ho. reflexivity.
Qed.

Lemma Int_parseLiteral_decimal_text z :
  parseLiteral GraphQLInt (INT (decimal_text z)) =
  if int32 z then Return (JS.Num (JS.of_Z z)) else NotApplicable.
Proof.
  rewrite Int_parseLiteral_INT, base10_integer_decimal_text.
  cbv zeta.
  assert ((if z <? 0 then - Z.abs z else Z.abs z) = z) as ->
    by (destruct (Z.ltb_spec z 0); lia).
  assert ((z <? 0) && (Z.abs z =? 0) = false) as ->.
  { destruct (Z.ltb_spec z 0); [|reflexivity].
    destruct (Z.eqb_spec (Z.abs z) 0); [lia|reflexivity]. }
  reflexivity.
Qed.

(* ================================================================== *)
(** * Further properties of the scalars *)
(* ================================================================== *)

Lemma Int_serialize_result (v r : JS.value) :
  serialize GraphQLInt v = Return r ->
  exists x n : JS.number,
    r = JS.Num x /\
    JS.Number v = Return n /\
    JS.eqb x n = true /\
    is_integer x = true /\
    is_NaN x = false /\
    outside_int32 x = false.
Proof.
  rewrite Int_serialize_unfold. unfold Int_coerce.
  destruct (JS.strict_equals_string v ""); [discriminate|].
  destruct (JS.Number v) as [[ | b | | m e]|err]; cbn [and_then is_NaN orb];
    try (destruct (JS.String v); discriminate); try discriminate.
  - intros [= <-]. exists JS.NegZero, JS.NegZero. repeat split; reflexivity.
  - destruct (outside_int32 (JS.Fin m e)) eqn:Ho;
      [destruct (JS.String v); discriminate|].
    destruct (is_integer (JS.Fin m e)) eqn:Hi;
      [|destruct (JS.String v); discriminate].
    intros [= <-]. exists (JS.of_Z (m / JS.pow2 e)), (JS.Fin m e).
    cbn [outside_int32 is_integer] in Ho, Hi.
    pose proof (pow2_pos e) as Hp.
    apply orb_false_iff in Ho as [Hlo Hhi].
    apply Z.ltb_ge in Hlo, Hhi. apply Z.eqb_eq in Hi.
    pose proof (Z.div_mod m (JS.pow2 e) ltac:(lia)) as Hd.
    rewrite Hi, Z.add_0_r in Hd.
    split; [reflexivity|]. split; [reflexivity|]. split.
    { unfold JS.eqb, JS.of_Z. rewrite compare_Fin, pow2_0, Z.mul_1_r.
      replace (m / JS.pow2 e * JS.pow2 e) with m by lia.
      rewrite Z.compare_refl. reflexivity. }
    unfold JS.of_Z. cbn [is_integer is_NaN outside_int32].
    rewrite pow2_0, !Z.mul_1_r, Z.mod_1_r.
    repeat split; try reflexivity.
    destruct (Z.ltb_spec (m / JS.pow2 e) (-2147483648));
      destruct (Z.ltb_spec 2147483647 (m / JS.pow2 e));
      try reflexivity; nia.
Qed.

(** X1: a value returned by [Int.serialize] is a number equal ([===]) to
    the numeric conversion of the input, an integer of the signed 32-bit
    range: the coercion checks but never rounds or truncates. *)
Theorem Int_serialize_returns_the_input_number (v r : JS.value) :
  serialize GraphQLInt v = Return r ->
  exists x n : JS.number,
    r = JS.Num x /\
    JS.Number v = Return n /\
    JS.eqb x n = true /\
    is_integer x = true /\
    is_NaN x = false /\
    outside_int32 x = false.
Proof. apply Int_serialize_result. Qed.

Lemma Int_serialize_returns_the_input_number_witness :
  exists x n : JS.number,
    JS.Num (JS.of_Z 12) = JS.Num x /\
    JS.Number (JS.Str " 12 ") = Return n /\
    JS.eqb x n = true /\
    is_integer x = true /\
    is_NaN x = false /\
    outside_int32 x = false.
Proof.
  apply (Int_serialize_returns_the_input_number (JS.Str " 12 ")).
  vm_compute. reflexivity.
Defined.

(** X2: on the decimal text of an integer [z], given as a string,
    [Int.serialize] and [Int.parseValue] return the number [z] when [z]
    is in the signed 32-bit range and throw the range error, quoting the
    text, otherwise. *)
Theorem Int_coerces_decimal_strings (z : Z) :
  serialize GraphQLInt (JS.Str (decimal_text z)) =
  (if int32 z then Return (JS.Num (JS.of_Z z))
   else Throw (TypeError
          ("Int cannot represent non 32-bit signed integer value: " ++
           decimal_text z)))
  /\ parseValue GraphQLInt (JS.Str (decimal_text z))
     = serialize GraphQLInt (JS.Str (decimal_text z)).
Proof. split; [apply Int_serialize_decimal_text | reflexivity]. Qed.

(** X3: for an integer in the 32-bit range the literal path and the
    value path of [Int] agree; outside the range they differ:
    [parseLiteral] returns [undefined] for the literal while [parseValue]
    throws the range error for the number. *)
Theorem Int_literal_and_value_paths (z : Z) :
  (int32 z = true ->
   parseLiteral GraphQLInt (INT (decimal_text z)) = Return (JS.Num (JS.of_Z z))
   /\ parseValue GraphQLInt (JS.Num (JS.of_Z z)) = Return (JS.Num (JS.of_Z z)))
  /\ (int32 z = false ->
      parseLiteral GraphQLInt (INT (decimal_text z)) = Return JS.Undefined
      /\ parseValue GraphQLInt (JS.Num (JS.of_Z z))
         = Throw (TypeError
             ("Int cannot represent non 32-bit signed integer value: " ++
              JS.NumberToString (JS.of_Z z)))).
Proof.
  rewrite Int_parseLiteral_decimal_text, Int_parseValue_serialize.
  split; intros Hz; rewrite Hz.
  - split; [reflexivity|]. apply Int_serialize_int32.
    unfold int32 in Hz. apply andb_true_iff in Hz as [H1 H2].
    apply Z.leb_le in H1, H2. lia.
  - split; [reflexivity|].
    rewrite Int_serialize_unfold. unfold Int_coerce.
    cbn [JS.strict_equals_string]. rewrite Number_Num.
    change (JS.String (JS.Num (JS.of_Z z)))
      with (Return (JS.NumberToString (JS.of_Z z))).
    unfold JS.of_Z at 1 2. cbn [and_then is_NaN orb outside_int32].
    rewrite pow2_0, !Z.mul_1_r.
    unfold int32 in Hz.
    destruct (Z.ltb_spec z (-2147483648)), (Z.ltb_spec 2147483647 z),
      (Z.leb_spec (-2147483648) z), (Z.leb_spec z 2147483647);
      try lia; try discriminate; reflexivity.
Qed.

Lemma Int_literal_and_value_paths_witness :
  parseLiteral GraphQLInt (INT (decimal_text 2147483648)) = Return JS.Undefined
  /\ parseValue GraphQLInt (JS.Num (JS.of_Z 2147483648))
     = Throw (TypeError
         ("Int cannot represent non 32-bit signed integer value: " ++
          JS.NumberToString (JS.of_Z 2147483648))).
Proof.
  apply (proj2 (Int_literal_and_value_paths 2147483648)). reflexivity.
Defined.

(** X4: for each of the five scalars, whatever [parseLiteral] returns
    for a node, other than [undefined] and [NaN], is returned unchanged by
    [parseValue] and by [serialize]. *)
Theorem literal_value_is_fixed_by_parseValue (t : GraphQLScalarType) :
  In t specifiedScalarTypes ->
  forall (ast : ValueNode) (r : JS.value),
    parseLiteral t ast = Return r ->
    r <> JS.Undefined ->
    r <> JS.Num JS.NaN ->
    parseValue t r = Return r /\ serialize t r = Return r.
Proof.
  intros [<-|[<-|[<-|[<-|[<-|[]]]]]] ast r Hlit Hu Hn.
  - destruct ast; cbn in Hlit; injection Hlit as <-;
      try congruence; split; reflexivity.
  - rewrite Int_parseValue_serialize.
    destruct ast as [text|text|text|b|tag];
      try (cbn in Hlit; injection Hlit as <-; congruence).
    rewrite Int_parseLiteral_INT in Hlit.
    destruct (base10_integer text) as [[negative z]|];
      [|injection Hlit as <-; congruence].
    cbv zeta in Hlit.
    destruct (int32 (if negative then - z else z)) eqn:Hi;
      [|injection Hlit as <-; congruence].
    injection Hlit as <-.
    destruct (negb (negative && (z =? 0))) eqn:E.
    + apply negb_true_iff in E. rewrite E.
      assert (serialize GraphQLInt (JS.Num (JS.of_Z (if negative then - z else z)))
              = Return (JS.Num (JS.of_Z (if negative then - z else z)))).
      { apply Int_serialize_int32. unfold int32 in Hi.
        apply andb_true_iff in Hi as [H1 H2]. apply Z.leb_le in H1, H2. lia. }
      split; assumption.
    + apply negb_false_iff in E. rewrite E. split; reflexivity.
  - destruct ast as [text|text|text|b|tag];
      try (cbn in Hlit; injection Hlit as <-; congruence);
      (change (Return (JS.Num (JS.parseFloat_string text)) = Return r)
         in Hlit);
      injection Hlit as <-;
      cbn [parseValue serialize GraphQLFloat JS.strict_equals_string];
      rewrite Number_Num; cbn [and_then];
      rewrite eqb_refl_not_NaN;
      (destruct (JS.parseFloat_string text);
       [congruence | split; reflexivity ..]).
  - destruct ast; cbn in Hlit; injection Hlit as <-;
      try congruence; split; reflexivity.
  - destruct ast; cbn in Hlit; injection Hlit as <-;
      try congruence; split; reflexivity.
Qed.

Lemma literal_value_is_fixed_by_parseValue_witness :
  In GraphQLFloat specifiedScalarTypes /\
  parseValue GraphQLFloat (JS.Num (JS.Fin 5 1)) = Return (JS.Num (JS.Fin 5 1)) /\
  serialize GraphQLFloat (JS.Num (JS.Fin 5 1)) = Return (JS.Num (JS.Fin 5 1)).
Proof.
  assert (Hin : In GraphQLFloat specifiedScalarTypes)
    by (right; right; left; reflexivity).
  split; [exact Hin|].
  apply (literal_value_is_fixed_by_parseValue GraphQLFloat Hin (FLOAT "2.5")).
  - vm_compute. reflexivity.
  - discriminate.
  - discriminate.
Defined.

(** X5: for an integer [z] with [|z| < 2^53], [Float.parseLiteral] on
    an INT or FLOAT node holding the decimal text of [z], and
    [Float.serialize] / [Float.parseValue] on that text as a string, all
    return exactly [z]. *)
Theorem Float_reads_integer_texts_exactly (z : Z) :
  - 2 ^ 53 < z < 2 ^ 53 ->
  parseLiteral GraphQLFloat (INT (decimal_text z)) = Return (JS.Num (JS.of_Z z))
  /\ parseLiteral GraphQLFloat (FLOAT (decimal_text z))
     = Return (JS.Num (JS.of_Z z))
  /\ serialize GraphQLFloat (JS.Str (decimal_text z))
     = Return (JS.Num (JS.of_Z z))
  /\ parseValue GraphQLFloat (JS.Str (decimal_text z))
     = Return (JS.Num (JS.of_Z z)).
Proof.
  intros Hz.
  assert (Hp : JS.parseFloat (JS.Str (decimal_text z)) = Return (JS.of_Z z)).
  { unfold JS.parseFloat. cbn [JS.ToString JS.PrimitiveToString and_then].
    rewrite parseFloat_string_decimal_text, signed_round_exact by exact Hz.
    reflexivity. }
  assert (Hs : serialize GraphQLFloat (JS.Str (decimal_text z))
               = Return (JS.Num (JS.of_Z z))).
  { cbn [serialize GraphQLFloat].
    rewrite strict_equals_decimal_text, Number_Str. cbn [and_then].
    rewrite StringToNumber_decimal_text, signed_round_exact by exact Hz.
    unfold JS.of_Z. rewrite eqb_Fin_refl. reflexivity. }
  repeat split; try exact Hs;
    cbn [parseLiteral GraphQLFloat kind Kind.eqb orb node_value];
    rewrite Hp; reflexivity.
Qed.

Lemma Float_reads_integer_texts_exactly_witness :
  - 2 ^ 53 < 9007199254740991 < 2 ^ 53 /\
  parseLiteral GraphQLFloat (INT (decimal_text 9007199254740991))
  = Return (JS.Num (JS.of_Z 9007199254740991)).
Proof.
  assert (H : - 2 ^ 53 < 9007199254740991 < 2 ^ 53)
    by (change (2 ^ 53) with 9007199254740992; lia).
  split; [exact H|].
  exact (proj1 (Float_reads_integer_texts_exactly 9007199254740991 H)).
Defined.

(** X6: whatever [Int.serialize] accepts, [Float.serialize] accepts too,
    and the two results are equal numbers. *)
Theorem Int_accepts_only_what_Float_accepts (v r : JS.value) :
  serialize GraphQLInt v = Return r ->
  exists i x : JS.number,
    r = JS.Num i /\
    serialize GraphQLFloat v = Return (JS.Num x) /\
    JS.eqb i x = true.
Proof.
  intros H.
  destruct (Int_serialize_result v r H)
    as (i & n & -> & Hnum & Heq & _ & Hnan & _).
  exists i, n. split; [reflexivity|]. split; [|exact Heq].
  rewrite Int_serialize_unfold in H. unfold Int_coerce in H.
  cbn [serialize GraphQLFloat].
  destruct (JS.strict_equals_string v ""); [discriminate|].
  rewrite Hnum. cbn [and_then]. rewrite eqb_refl_not_NaN.
  destruct n; [destruct i; discriminate Heq | reflexivity ..].
Qed.

Lemma Int_accepts_only_what_Float_accepts_witness :
  exists i x : JS.number,
    JS.Num (JS.of_Z 1) = JS.Num i /\
    serialize GraphQLFloat (JS.Bool true) = Return (JS.Num x) /\
    JS.eqb i x = true.
Proof.
  apply (Int_accepts_only_what_Float_accepts (JS.Bool true)).
  vm_compute. reflexivity.
Defined.

(** X7: for each of the five scalars [parseValue] and [serialize] are
    the same coercion, so a serialized value is parsed back unchanged. *)
Theorem serialized_values_parse_back (t : GraphQLScalarType) :
  In t specifiedScalarTypes ->
  forall v : JS.value,
    parseValue t v = serialize t v /\
    (forall r : JS.value,
       serialize t v = Return r -> parseValue t r = Return r).
Proof.
  intros [<-|[<-|[<-|[<-|[<-|[]]]]]] v; (split; [reflexivity|]); intros r.
  - apply String_serialize_idempotent.
  - apply Int_serialize_idempotent.
  - apply Float_serialize_idempotent.
  - apply Boolean_serialize_idempotent.
  - apply ID_serialize_idempotent.
Qed.

Lemma serialized_values_parse_back_witness :
  In GraphQLFloat specifiedScalarTypes /\
  parseValue GraphQLFloat (JS.Str "3.14") = serialize GraphQLFloat (JS.Str "3.14")
  /\ parseValue GraphQLFloat (JS.Num (JS.Fin 7070651414971679 51))
     = Return (JS.Num (JS.Fin 7070651414971679 51)).
Proof.
  assert (Hin : In GraphQLFloat specifiedScalarTypes)
    by (right; right; left; reflexivity).
  destruct (serialized_values_parse_back GraphQLFloat Hin (JS.Str "3.14"))
    as [Heq Hback].
  split; [exact Hin|]. split; [exact Heq|].
  apply Hback. vm_compute. reflexivity.
Defined.

(** X8: the node kinds each [parseLiteral] can accept: [Int] only INT;
    [Float] exactly FLOAT and INT; [String] exactly STRING; [Boolean]
    exactly BOOLEAN; [ID] exactly STRING and INT; a node of any other kind
    is turned down by all five. *)
Theorem literal_kinds_accepted (ast : ValueNode) :
  (parseLiteral GraphQLInt ast <> Return JS.Undefined -> kind ast = Kind.INT)
  /\ (parseLiteral GraphQLFloat ast <> Return JS.Undefined <->
      kind ast = Kind.FLOAT \/ kind ast = Kind.INT)
  /\ (parseLiteral GraphQLString ast <> Return JS.Undefined <->
      kind ast = Kind.STRING)
  /\ (parseLiteral GraphQLBoolean ast <> Return JS.Undefined <->
      kind ast = Kind.BOOLEAN)
  /\ (parseLiteral GraphQLID ast <> Return JS.Undefined <->
      kind ast = Kind.STRING \/ kind ast = Kind.INT)
  /\ (forall (tag : string) (t : GraphQLScalarType),
        kind ast = Kind.OTHER tag ->
        In t specifiedScalarTypes ->
        parseLiteral t ast = Return JS.Undefined).
Proof.
  destruct ast as [text|text|text|b|tag];
    (split; [|split; [|split; [|split; [|split]]]]);
    cbn [parseLiteral GraphQLInt GraphQLFloat GraphQLString GraphQLBoolean
         GraphQLID kind Kind.eqb orb node_value];
    try (intros tag' t H; discriminate H);
    try (intros tag' t _ [<-|[<-|[<-|[<-|[<-|[]]]]]]; reflexivity);
    try (intros _; reflexivity);
    try (intros H; congruence);
    try (split; [intros H; congruence | intros H H'; discriminate]);
    try (split; [intros _; auto | intros _ H'; discriminate]);
    try (split; [intros H; congruence | intros [H|H]; discriminate]).
Qed.

Lemma literal_kinds_accepted_witness :
  kind (INT "7") = Kind.INT.
Proof.
  apply (proj1 (literal_kinds_accepted (INT "7"))).
  vm_compute. discriminate.
Defined.

(** What the numeric scalars return depends on the input through its
    numeric conversion only (the string conversion shows in messages). *)
Lemma numeric_results_follow_Number (v w r : JS.value) :
  JS.strict_equals_string v "" = false ->
  JS.strict_equals_string w "" = false ->
  JS.Number v = JS.Number w ->
  (serialize GraphQLInt v = Return r <-> serialize GraphQLInt w = Return r)
  /\ (serialize GraphQLFloat v = Return r <->
      serialize GraphQLFloat w = Return r).
Proof.
  intros Hv Hw Hn.
  rewrite !Int_serialize_unfold. unfold Int_coerce.
  cbn [serialize GraphQLFloat]. rewrite Hv, Hw, Hn.
  destruct (JS.Number w) as [num|err]; cbn [and_then];
    [|split; split; discriminate].
  split.
  - destruct (is_NaN num || outside_int32 num);
      [destruct (JS.String v), (JS.String w); split; discriminate|].
    destruct (is_integer num); [tauto|].
    destruct (JS.String v), (JS.String w); split; discriminate.
  - destruct (JS.eqb num num); [tauto|].
    destruct (JS.String v), (JS.String w); split; discriminate.
Qed.

(** X9: for an ordinary object (not callable, without
    [Symbol.toPrimitive]) whose [valueOf] returns a primitive,
    [serializeObject] returns that primitive, which has the numeric
    conversion of the object itself; unless it is the empty string,
    [Int.serialize] and [Float.serialize] return the same value on the
    object and on the extracted primitive. *)
Theorem serializeObject_agrees_with_numeric_coercion
    (p : JS.value) (toString toJSON : JS.method) :
  JS.is_primitive p = true ->
  serializeObject (JS.Obj false JS.NoHook (JS.Returns p) toString toJSON) = p
  /\ JS.Number (JS.Obj false JS.NoHook (JS.Returns p) toString toJSON)
     = JS.Number p
  /\ (p <> JS.Str "" ->
      forall r : JS.value,
        (serialize GraphQLInt p = Return r <->
         serialize GraphQLInt
           (JS.Obj false JS.NoHook (JS.Returns p) toString toJSON) = Return r)
        /\ (serialize GraphQLFloat p = Return r <->
            serialize GraphQLFloat
              (JS.Obj false JS.NoHook (JS.Returns p) toString toJSON)
            = Return r)).
Proof.
  intros Hp.
  assert (Hso : serializeObject
                  (JS.Obj false JS.NoHook (JS.Returns p) toString toJSON) = p)
    by (destruct p; try discriminate; reflexivity).
  assert (Hnum : JS.Number
                   (JS.Obj false JS.NoHook (JS.Returns p) toString toJSON)
                 = JS.Number p).
  { unfold JS.Number.
    cbn [JS.ToPrimitive JS.ObjectToPrimitive JS.OrdinaryToPrimitive
         JS.primitive_result].
    rewrite Hp. destruct p; try discriminate; reflexivity. }
  split; [exact Hso|]. split; [exact Hnum|].
  intros Hne r.
  apply numeric_results_follow_Number; [| reflexivity | symmetry; exact Hnum].
  destruct (strict_equals_string_spec p ""); congruence.
Qed.

Lemma serializeObject_agrees_with_numeric_coercion_witness :
  serializeObject
    (JS.Obj false JS.NoHook (JS.Returns (JS.Str "42"))
            (JS.Returns (JS.Str "id")) JS.NotFunction)
  = JS.Str "42".
Proof.
  apply (proj1 (serializeObject_agrees_with_numeric_coercion
                  (JS.Str "42") (JS.Returns (JS.Str "id")) JS.NotFunction
                  eq_refl)).
Defined.

(** X10: [ID] accepts whatever [String] accepts, with the same result,
    for values and for literals; [String.serialize] throws on arrays and
    on values whose string conversion throws, and on nothing else, and
    it is on arrays only that [ID.serialize] can return where
    [String.serialize] throws. *)
Theorem ID_accepts_what_String_accepts :
  (forall v r : JS.value,
     serialize GraphQLString v = Return r -> serialize GraphQLID v = Return r)
  /\ (forall v : JS.value,
        (exists e, serialize GraphQLString v = Throw e) <->
        (exists items, v = JS.Arr items) \/ exists e, JS.String v = Throw e)
  /\ (forall v r : JS.value,
        serialize GraphQLID v = Return r ->
        serialize GraphQLString v = Return r \/ exists items, v = JS.Arr items)
  /\ (forall (ast : ValueNode) (r : JS.value),
        parseLiteral GraphQLString ast = Return r ->
        r <> JS.Undefined ->
        parseLiteral GraphQLID ast = Return r).
Proof.
  split; [|split; [|split]].
  - intros v r. cbn [serialize GraphQLString GraphQLID].
    destruct (JS.Array.isArray v), (JS.String v); try discriminate.
    intros H; exact H.
  - intros v. cbn [serialize GraphQLString].
    destruct (JS.String v) as [text|err]; cbn [and_then]; split.
    + intros [e He]. destruct v; try discriminate. left. eexists; reflexivity.
    + intros [[items ->]|[e He]]; [eexists; reflexivity | discriminate].
    + intros _. right. eexists; reflexivity.
    + intros _. destruct (JS.Array.isArray v); eexists; reflexivity.
  - intros v r. cbn [serialize GraphQLString GraphQLID].
    destruct (JS.String v) as [text|err]; cbn [and_then]; [|discriminate].
    intros H. destruct v; cbn [JS.Array.isArray]; auto.
    right. eexists; reflexivity.
  - intros ast r H Hr.
    destruct ast; cbn in H |- *; injection H as <-; congruence.
Qed.

Lemma ID_accepts_what_String_accepts_witness :
  serialize GraphQLID (JS.Num (JS.of_Z 42)) = Return (JS.Str "42").
Proof.
  apply (proj1 ID_accepts_what_String_accepts (JS.Num (JS.of_Z 42))).
  vm_compute. reflexivity.
Defined.


(** X12: a non-empty string of white space only is not caught by the
    empty-string check: [Int.serialize] and [Float.serialize] return 0
    for it. *)
Theorem blank_strings_coerce_to_zero (s : string) :
  s <> "" ->
  JS.all_white_space s = true ->
  serialize GraphQLInt (JS.Str s) = Return (JS.Num (JS.of_Z 0)) /\
  serialize GraphQLFloat (JS.Str s) = Return (JS.Num (JS.of_Z 0)).
Proof.
  intros Hne Hws.
  assert (Hn : JS.Number (JS.Str s) = Return (JS.Fin 0 0)).
  { rewrite Number_Str.
    unfold JS.StringToNumber. unfold JS.all_white_space in Hws.
    destruct (JS.skip_white_space s); [reflexivity|discriminate]. }
  assert (Hs : JS.strict_equals_string (JS.Str s) "" = false).
  { destruct (strict_equals_string_spec (JS.Str s) ""); congruence. }
  rewrite Int_serialize_unfold. unfold Int_coerce.
  cbn [serialize GraphQLFloat]. rewrite Hs, Hn. split; reflexivity.
Qed.

Lemma blank_strings_coerce_to_zero_witness :
  serialize GraphQLInt (JS.Str "  ") = Return (JS.Num (JS.of_Z 0)) /\
  serialize GraphQLFloat (JS.Str "  ") = Return (JS.Num (JS.of_Z 0)).
Proof.
  apply (blank_strings_coerce_to_zero "  ").
  - discriminate.
  - reflexivity.
Defined.
